(** * Cline JupyterLab extension: task/message controller, adapter, host provider

    A shallow embedding of
      - [core.ts]             ([ClineCore]: tasks, messages, canned reply),
      - [cline-adapter.ts]    ([ClineJupyterLabAdapter]: notebook commands),
      - [host-integration.ts] ([JupyterLabHostProvider.getActiveDocument]),
    followed by the properties of the specification checked against it.

    Conventions of the embedding.
      - A JavaScript string is a [string] (its UTF-8 bytes).  The only string
        operations the code uses are concatenation, [split] and [join] on a
        one-character ASCII separator, [slice(0, n)], [length] and truthiness.
        An ASCII byte never occurs inside a multi-byte sequence, so splitting
        on bytes and on code units cut at the same places.  [length] and
        [slice] count UTF-16 code units: they walk the bytes character by
        character, a character of four bytes counting for two units; the
        lone surrogate a cut inside such a character leaves behind is
        written in the three-byte pattern of its code point.
      - [Date.now()] and [new Date()] read the host clock.  The clock is an
        oracle [clock : nat -> Z] (milliseconds) together with the number of
        readings taken so far; every reading advances the counter.
      - Task objects live in a store and are referred to by location: the
        controller's [currentTask] and the entries of its [tasks] array are
        references to the same objects.
      - A method is a computation in a state-and-exception monad over the
        [World]; a JavaScript [throw] keeps the state reached so far.
      - The [async] methods contain no real suspension point (every awaited
        promise is already settled), so each call is run to completion. *)

From stdpp Require Import base list strings pretty sorting.
From Stdlib Require Import ZArith QArith Lia.

Close Scope Q_scope.

Local Open Scope string_scope.

(** ** JavaScript string helpers *)

Module Js.

(** The characters that cannot be written inside a literal. *)
Definition dquote : string := String (Ascii.ascii_of_nat 34) EmptyString.
Definition nl : string := String (Ascii.ascii_of_nat 10) EmptyString.

Definition space : Ascii.ascii := Ascii.ascii_of_nat 32.
Definition dot : Ascii.ascii := Ascii.ascii_of_nat 46.

(** Truthiness of a string: only the empty string is falsy. *)
Definition truthy (s : string) : bool :=
  match s with
  | EmptyString => false
  | String _ _ => true
  end.

(** Truthiness of a possibly [undefined] string. *)
Definition truthy_opt (o : option string) : bool :=
  match o with
  | Some s => truthy s
  | None => false
  end.

(** [a || d] on possibly [undefined] strings. *)
Definition or_else (o : option string) (d : string) : string :=
  match o with
  | Some s => if truthy s then s else d
  | None => d
  end.

(** [s.split(c)] for a one-character separator: the result is never empty,
    [''.split(c)] is [['']], and adjacent separators give empty segments. *)
Fixpoint split (sep : Ascii.ascii) (s : string) : list string :=
  match s with
  | EmptyString => [EmptyString]
  | String c s' =>
      if decide (c = sep) then EmptyString :: split sep s'
      else match split sep s' with
           | seg :: segs => String c seg :: segs
           | [] => [String c EmptyString]
           end
  end.

(** [xs.join(sep)]. *)
Fixpoint join (sep : string) (xs : list string) : string :=
  match xs with
  | [] => EmptyString
  | [x] => x
  | x :: rest => x +:+ sep +:+ join sep rest
  end.

(** The value of a byte. *)
Definition byte (a : Ascii.ascii) : N := Ascii.N_of_ascii a.

(** [s.length]: the number of UTF-16 code units.  The first byte of a
    character tells how many bytes the character takes: below 192 one,
    below 224 two, below 240 three, otherwise four; only a character of
    four bytes takes two code units (a surrogate pair).  A sequence cut
    short by the end of the string, which no JavaScript string encodes
    to, counts for one unit. *)
Fixpoint length (s : string) : nat :=
  match s with
  | EmptyString => 0
  | String a s1 =>
      if (byte a <? 192)%N then S (length s1)
      else if (byte a <? 224)%N then
        match s1 with
        | String _ s2 => S (length s2)
        | _ => 1
        end
      else if (byte a <? 240)%N then
        match s1 with
        | String _ (String _ s3) => S (length s3)
        | _ => 1
        end
      else
        match s1 with
        | String _ (String _ (String _ s4)) => S (S (length s4))
        | _ => 1
        end
  end.

(** The high surrogate of the character of four bytes [a b c d], in the
    three-byte pattern: what is left of the character when a cut takes
    the first of its two code units only. *)
Definition high_surrogate (a b c d : Ascii.ascii) : string :=
  let cp := ((byte a mod 8) * 262144 + (byte b mod 64) * 4096
             + (byte c mod 64) * 64 + byte d mod 64)%N in
  let high := (55296 + (cp - 65536) / 1024)%N in
  String (Ascii.ascii_of_N 237)
    (String (Ascii.ascii_of_N (128 + (high / 64) mod 64))
       (String (Ascii.ascii_of_N (128 + high mod 64)) EmptyString)).

(** [s.slice(0, n)]: the first [n] UTF-16 code units. *)
Fixpoint slice0 (n : nat) (s : string) {struct n} : string :=
  match n, s with
  | S n', String a s1 =>
      if (byte a <? 192)%N then String a (slice0 n' s1)
      else if (byte a <? 224)%N then
        match s1 with
        | String b s2 => String a (String b (slice0 n' s2))
        | _ => s
        end
      else if (byte a <? 240)%N then
        match s1 with
        | String b (String c s3) =>
            String a (String b (String c (slice0 n' s3)))
        | _ => s
        end
      else
        match s1, n' with
        | String b (String c (String d s4)), S n'' =>
            String a (String b (String c (String d (slice0 n'' s4))))
        | String b (String c (String d _)), 0 => high_surrogate a b c d
        | _, _ => s
        end
  | _, _ => EmptyString
  end.

(** [xs.pop()] on a fresh array: the last element, [undefined] if none. *)
Definition pop (xs : list string) : option string := last xs.

(** Number of occurrences of a character. *)
Fixpoint count (c : Ascii.ascii) (s : string) : nat :=
  match s with
  | EmptyString => 0
  | String d s' => (if decide (d = c) then 1 else 0) + count c s'
  end.

End Js.

(** ** Data model ([core.ts]) *)

Inductive ApiProvider := openai | anthropic | openrouter | local.

(** The interface requires [apiProvider] and [model], but the stored
    configuration can come to hold [undefined] there too: [updateConfig]
    takes a [Partial<ClineConfig>], whose fields admit [undefined], and
    spreads it over the configuration. *)
Record ClineConfig := mkConfig {
  apiProvider : option ApiProvider;
  apiKey : option string;
  apiUrl : option string;
  model : option string;
  maxTokens : option Z;
  (* a JavaScript number; it is only stored, never computed with *)
  temperature : option Q
}.

(** [Partial<ClineConfig>]: every field may be missing, and a field that
    is present may carry [undefined]. *)
Record PartialConfig := mkPartial {
  p_apiProvider : option (option ApiProvider);
  p_apiKey : option (option string);
  p_apiUrl : option (option string);
  p_model : option (option string);
  p_maxTokens : option (option Z);
  p_temperature : option (option Q)
}.

Inductive MessageType := user | assistant | system | tool.

(** [metadata?: any]; the controller only ever stores [{ images }] or
    [undefined] there. *)
Record Metadata := mkMetadata { images : list string }.

Record ClineMessage := mkMessage {
  msg_id : string;
  msg_type : MessageType;
  msg_content : string;
  msg_timestamp : Z;
  msg_metadata : option Metadata
}.

Inductive TaskStatus := active | completed | failed.

Record ClineTask := mkTask {
  task_id : string;
  title : string;
  messages : list ClineMessage;
  status : TaskStatus;
  createdAt : Z;
  updatedAt : Z
}.

(** ** The title rule ([ClineCore.generateTaskTitle]) *)

Definition generateTaskTitle (message : string) : string :=
  let words := take 6 (Js.split Js.space message) in
  Js.join " " words
    +:+ (if (6 <? length (Js.split Js.space message))%nat then "..." else "").

(** ** The JupyterLab host object

    Both the adapter and the host provider receive the host as an untyped
    [jupyterLabAPI] object and reach into it with optional chaining.  Only
    the parts the code reads are kept; [None] stands for [undefined]/[null]. *)

Record Editor := mkEditor { getSelectedText : string }.

Record ActiveCell := mkActiveCell {
  source : string;
  editor : option Editor
}.

Record NotebookCell := mkCell {
  cell_type : string;                 (* cell.type *)
  cell_text : string;                 (* cell.value.text *)
  cell_language : option string       (* cell.metadata.get('language') *)
}.

Inductive DocModel :=
  | NotebookModel (cells : list NotebookCell)   (* model.type === 'notebook' *)
  | FileModel (text : string)                   (* model.value is set *)
  | OtherModel.

Record WidgetContent := mkContent {
  doc_model : option DocModel;
  activeCell : option ActiveCell
}.

Record Widget := mkWidget {
  content : option WidgetContent;
  context_path : option string        (* context?.path *)
}.

Record Shell := mkShell { currentWidget : option Widget }.

Record JupyterLabAPI := mkAPI {
  shell : option Shell;
  (* the command registry, when the host has one: (id, label) pairs *)
  commands : option (list (string * string));
  (* whether [serviceManager] is present *)
  serviceManager : bool
}.

(** ** Controller state, store and world *)

(** A location of the store. *)
Abbreviation loc := nat.

Record ClineCore := mkCore {
  config : ClineConfig;
  currentTask : option loc;
  tasks : list loc
}.

Inductive JsError := Error (message : string).

Inductive ConsoleEntry :=
  | console_log (text : string)
  | console_log_config (text : string) (c : ClineConfig)
  | console_error (text : string) (e : JsError).

Record World := mkWorld {
  clock : nat -> Z;           (* the readings the host clock will give *)
  ticks : nat;                (* readings taken so far *)
  heap : list ClineTask;      (* the task objects, by location *)
  console : list ConsoleEntry;
  this : ClineCore;
  jupyterLabAPI : JupyterLabAPI
}.

Definition set_ticks (n : nat) (w : World) : World :=
  mkWorld (clock w) n (heap w) (console w) (this w) (jupyterLabAPI w).
Definition set_heap (h : list ClineTask) (w : World) : World :=
  mkWorld (clock w) (ticks w) h (console w) (this w) (jupyterLabAPI w).
Definition set_console (c : list ConsoleEntry) (w : World) : World :=
  mkWorld (clock w) (ticks w) (heap w) c (this w) (jupyterLabAPI w).
Definition set_this (c : ClineCore) (w : World) : World :=
  mkWorld (clock w) (ticks w) (heap w) (console w) c (jupyterLabAPI w).
Definition set_api (a : JupyterLabAPI) (w : World) : World :=
  mkWorld (clock w) (ticks w) (heap w) (console w) (this w) a.

(** [new ClineJupyterLabAdapter(config, jupyterLabAPI)] in a fresh process. *)
Definition new_world (clk : nat -> Z) (cfg : ClineConfig) (api : JupyterLabAPI)
  : World :=
  mkWorld clk 0 [] [] (mkCore cfg None []) api.

(** ** The method monad *)

Inductive Completion (A : Type) :=
  | Return (a : A)
  | Throw (e : JsError).
Arguments Return {A} a.
Arguments Throw {A} e.

Definition M (A : Type) : Type := World -> Completion A * World.

#[export] Instance M_ret : MRet M := fun A a w => (Return a, w).

#[export] Instance M_bind : MBind M := fun A B f m w =>
  match m w with
  | (Return a, w') => f a w'
  | (Throw e, w') => (Throw e, w')
  end.

Definition throw {A} (e : JsError) : M A := fun w => (Throw e, w).

(** [try { body } catch (error) { handler(error) }] *)
Definition try_catch {A} (body : M A) (handler : JsError -> M A) : M A :=
  fun w =>
    match body w with
    | (Return a, w') => (Return a, w')
    | (Throw e, w') => handler e w'
    end.

Definition read {A} (f : World -> A) : M A := fun w => (Return (f w), w).
Definition write (f : World -> World) : M unit := fun w => (Return tt, f w).

(** [Date.now()] and [new Date()] both take the next clock reading. *)
Definition Date_now : M Z :=
  fun w => (Return (clock w (ticks w)), set_ticks (S (ticks w)) w).
Definition new_Date : M Z := Date_now.

(** Evaluating an object literal of type [ClineTask] creates a new object. *)
Definition alloc (t : ClineTask) : M loc :=
  fun w => (Return (length (heap w)), set_heap (heap w ++ [t]) w).

(** [task.messages.push(m)] *)
Definition push_message (task : loc) (m : ClineMessage) : M unit :=
  write (fun w =>
    set_heap (alter (fun t => mkTask (task_id t) (title t) (messages t ++ [m])
                                 (status t) (createdAt t) (updatedAt t))
                    task (heap w)) w).

(** [task.updatedAt = d] *)
Definition set_updatedAt (task : loc) (d : Z) : M unit :=
  write (fun w =>
    set_heap (alter (fun t => mkTask (task_id t) (title t) (messages t)
                                 (status t) (createdAt t) d)
                    task (heap w)) w).

Definition console_emit (e : ConsoleEntry) : M unit :=
  write (fun w => set_console (console w ++ [e]) w).

(** ** [ClineCore] *)

Module ClineCore.

Definition initialize : M unit :=
  cfg ← read (fun w => config (this w));
  console_emit (console_log_config "Initializing Cline with config:" cfg).

Definition startNewTask (initialMessage : option string) : M loc :=
  id_now ← Date_now;
  created ← new_Date;
  updated ← new_Date;
  task ← alloc {|
    task_id := "task-" +:+ pretty id_now;
    title := match initialMessage with
             | Some m => if Js.truthy m then generateTaskTitle m else "New Task"
             | None => "New Task"
             end;
    messages := [];
    status := active;
    createdAt := created;
    updatedAt := updated
  |};
  _ ← match initialMessage with
      | Some m =>
          if Js.truthy m then
            msg_now ← Date_now;
            stamp ← new_Date;
            push_message task {|
              msg_id := "msg-" +:+ pretty msg_now;
              msg_type := user;
              msg_content := m;
              msg_timestamp := stamp;
              msg_metadata := None
            |}
          else mret tt
      | None => mret tt
      end;
  _ ← write (fun w =>
         set_this (mkCore (config (this w)) (Some task) (tasks (this w))) w);
  _ ← write (fun w =>
         set_this (mkCore (config (this w)) (currentTask (this w))
                          (tasks (this w) ++ [task])) w);
  mret task.

Definition placeholder_reply (content : string) : string :=
  "I received your message: " +:+ Js.dquote +:+ content +:+ Js.dquote
  +:+ ". This is a placeholder response. The full implementation would process this through the Cline core logic.".

Definition sendMessage (content : string) (imgs : option (list string))
  : M ClineMessage :=
  cur ← read (fun w => currentTask (this w));
  match cur with
  | None => throw (Error "No active task. Start a new task first.")
  | Some task =>
      user_now ← Date_now;
      user_stamp ← new_Date;
      let userMessage := {|
        msg_id := "msg-" +:+ pretty user_now;
        msg_type := user;
        msg_content := content;
        msg_timestamp := user_stamp;
        msg_metadata := mkMetadata <$> imgs
      |} in
      _ ← push_message task userMessage;
      touched ← new_Date;
      _ ← set_updatedAt task touched;
      reply_now ← Date_now;
      reply_stamp ← new_Date;
      let assistantMessage := {|
        msg_id := "msg-" +:+ pretty (reply_now + 1)%Z;
        msg_type := assistant;
        msg_content := placeholder_reply content;
        msg_timestamp := reply_stamp;
        msg_metadata := None
      |} in
      _ ← push_message task assistantMessage;
      mret assistantMessage
  end.

Definition getCurrentTask : M (option loc) :=
  read (fun w => currentTask (this w)).

(** [[...this.tasks]]: a list is a value, so the result is already a copy. *)
Definition getTasks : M (list loc) :=
  read (fun w => tasks (this w)).

(** [{ ...this.config, ...newConfig }] *)
Definition merge_config (c : ClineConfig) (p : PartialConfig) : ClineConfig := {|
  apiProvider := default (apiProvider c) (p_apiProvider p);
  apiKey := default (apiKey c) (p_apiKey p);
  apiUrl := default (apiUrl c) (p_apiUrl p);
  model := default (model c) (p_model p);
  maxTokens := default (maxTokens c) (p_maxTokens p);
  temperature := default (temperature c) (p_temperature p)
|}.

Definition updateConfig (newConfig : PartialConfig) : M unit :=
  write (fun w =>
    set_this (mkCore (merge_config (config (this w)) newConfig)
                     (currentTask (this w)) (tasks (this w))) w).

End ClineCore.

(** ** [ClineJupyterLabAdapter] ([cline-adapter.ts])

    The adapter inherits every [ClineCore] method unchanged, except
    [initialize], and adds the three notebook commands. *)

Module ClineJupyterLabAdapter.

Definition getCurrentNotebook : M (option Widget) :=
  read (fun w => shell (jupyterLabAPI w) ≫= currentWidget).

Definition getSelectedCell : M (option ActiveCell) :=
  notebook ← getCurrentNotebook;
  mret ((notebook ≫= content) ≫= activeCell).

Definition getSelectedCode : M (option string) :=
  cell ← getSelectedCell;
  let selected := getSelectedText <$> (cell ≫= editor) in
  mret (if Js.truthy_opt selected then selected else None).

Definition analyzeNotebookStructure (notebook : Widget) : M string :=
  mret "Notebook analysis: The notebook contains code cells with data processing logic. Consider adding documentation and error handling.".

Definition explainCode (code : string) : M string :=
  mret ("This code performs: "
        +:+ (if (100 <? Js.length code)%nat
             then "complex operations" else "basic operations")
        +:+ ". " +:+ Js.slice0 100 code +:+ "...").

Definition optimizeCode (code : string) : M string :=
  mret ("# Optimized version" +:+ Js.nl +:+ code +:+ Js.nl
        +:+ "# TODO: Add actual optimization logic").

Definition analyzeCurrentNotebook : M unit :=
  try_catch
    (notebook ← getCurrentNotebook;
     match notebook with
     | None => throw (Error "No active notebook found")
     | Some nb =>
         analysis ← analyzeNotebookStructure nb;
         _ ← ClineCore.sendMessage
               ("I've analyzed your notebook. Here's what I found:"
                +:+ Js.nl +:+ Js.nl +:+ analysis) None;
         mret tt
     end)
    (fun error => console_emit (console_error "Failed to analyze notebook:" error)).

Definition explainSelectedCell : M unit :=
  try_catch
    (cell ← getSelectedCell;
     match cell with
     | None => throw (Error "No cell selected")
     | Some c =>
         explanation ← explainCode (source c);
         _ ← ClineCore.sendMessage
               ("Here's an explanation of the selected cell:"
                +:+ Js.nl +:+ Js.nl +:+ explanation) None;
         mret tt
     end)
    (fun error => console_emit (console_error "Failed to explain cell:" error)).

Definition optimizeSelectedCode : M unit :=
  try_catch
    (selection ← getSelectedCode;
     match selection with
     | None => throw (Error "No code selected")
     | Some code =>
         optimized ← optimizeCode code;
         _ ← ClineCore.sendMessage
               ("Here's the optimized version of your code:"
                +:+ Js.nl +:+ Js.nl +:+ "```python" +:+ Js.nl +:+ optimized
                +:+ Js.nl +:+ "```") None;
         mret tt
     end)
    (fun error => console_emit (console_error "Failed to optimize code:" error)).

Definition setupKernelIntegration : M unit :=
  console_emit (console_log "Setting up kernel integration...").

Definition setupJupyterLabIntegration : M unit :=
  _ ← console_emit (console_log "Setting up JupyterLab integration...");
  has_services ← read (fun w => serviceManager (jupyterLabAPI w));
  if has_services : bool then setupKernelIntegration else mret tt.

Definition addCommand (id label : string) : M unit :=
  write (fun w =>
    let api := jupyterLabAPI w in
    set_api (mkAPI (shell api) ((fun reg => (reg ++ [(id, label)])%list) <$> commands api)
                   (serviceManager api)) w).

Definition registerJupyterLabCommands : M unit :=
  registry ← read (fun w => commands (jupyterLabAPI w));
  match registry with
  | None => mret tt
  | Some _ =>
      _ ← addCommand "cline:analyze-notebook" "Analyze Current Notebook";
      _ ← addCommand "cline:explain-cell" "Explain Selected Cell";
      addCommand "cline:optimize-code" "Optimize Code"
  end.

Definition setupContextTracking : M unit :=
  console_emit (console_log "Setting up context tracking...").

Definition initialize : M unit :=
  _ ← ClineCore.initialize;
  _ ← setupJupyterLabIntegration;
  _ ← registerJupyterLabCommands;
  setupContextTracking.

End ClineJupyterLabAdapter.

(** ** [JupyterLabHostProvider.getActiveDocument] ([host-integration.ts]) *)

Module JupyterLabHostProvider.

Record Document := mkDocument {
  path : string;
  doc_content : string;
  language : string
}.

(** The body of the [for] loop over [notebook.model.cells], from index [i]
    on, with the two accumulators [content] and [language]. *)
Fixpoint cells_loop (cells : list NotebookCell) (i : nat)
    (content language : string) : string * string :=
  match cells with
  | [] => (content, language)
  | cell :: rest =>
      if decide (cell_type cell = "code") then
        let content' :=
          content +:+ "# Cell " +:+ pretty (i + 1) +:+ Js.nl
                  +:+ cell_text cell +:+ Js.nl +:+ Js.nl in
        let language' :=
          if decide (language = "python") then
            match cell_language cell with
            | Some l => if Js.truthy l then l else language
            | None => language
            end
          else language in
        cells_loop rest (S i) content' language'
      else cells_loop rest (S i) content language
  end.

(** The literal [languageMap]; keys inherited from [Object.prototype] are
    not part of the table. *)
Definition languageMap : list (string * string) :=
  [("py", "python"); ("js", "javascript"); ("ts", "typescript");
   ("md", "markdown"); ("json", "json"); ("yaml", "yaml"); ("yml", "yaml")].

Fixpoint assoc (k : string) (m : list (string * string)) : option string :=
  match m with
  | [] => None
  | (k', v) :: m' => if decide (k = k') then Some v else assoc k m'
  end.

Definition getActiveDocument (api : JupyterLabAPI) : option Document :=
  match shell api ≫= currentWidget with
  | None => None
  | Some currentWidget =>
      match content currentWidget ≫= doc_model with
      | Some (NotebookModel cells) =>
          let '(content, language) := cells_loop cells 0 "" "python" in
          Some {| path := Js.or_else (context_path currentWidget) "untitled.ipynb";
                  doc_content := content;
                  language := language |}
      | Some (FileModel text) =>
          let path := Js.or_else (context_path currentWidget) "untitled" in
          let extension := Js.or_else (Js.pop (Js.split Js.dot path)) "" in
          Some {| path := path;
                  doc_content := text;
                  language := Js.or_else (assoc extension languageMap) "text" |}
      | _ => None
      end
  end.

End JupyterLabHostProvider.

(** ** Sequences of calls

    What a client, or the host, can do to the world between two
    observations: call a public method of the adapter, run one of the
    three registered commands, or (the host) change what is focused. *)

Inductive Op :=
  | call_initialize
  | call_startNewTask (initialMessage : option string)
  | call_sendMessage (content : string) (imgs : option (list string))
  | call_getCurrentTask
  | call_getTasks
  | call_updateConfig (newConfig : PartialConfig)
  | cmd_analyze_notebook
  | cmd_explain_cell
  | cmd_optimize_code
  | host_focus (sh : option Shell).

Definition ignore {A} (m : M A) : World -> World := fun w => snd (m w).

Definition step (o : Op) : World -> World :=
  match o with
  | call_initialize => ignore ClineJupyterLabAdapter.initialize
  | call_startNewTask m => ignore (ClineCore.startNewTask m)
  | call_sendMessage c i => ignore (ClineCore.sendMessage c i)
  | call_getCurrentTask => ignore ClineCore.getCurrentTask
  | call_getTasks => ignore ClineCore.getTasks
  | call_updateConfig p => ignore (ClineCore.updateConfig p)
  | cmd_analyze_notebook => ignore ClineJupyterLabAdapter.analyzeCurrentNotebook
  | cmd_explain_cell => ignore ClineJupyterLabAdapter.explainSelectedCell
  | cmd_optimize_code => ignore ClineJupyterLabAdapter.optimizeSelectedCode
  | host_focus sh =>
      fun w => set_api (mkAPI sh (commands (jupyterLabAPI w))
                              (serviceManager (jupyterLabAPI w))) w
  end.

Definition run (ops : list Op) (w : World) : World :=
  foldl (fun w o => step o w) w ops.

(** Every reference the controller holds points at a task object. *)
Definition wf (w : World) : Prop :=
  Forall (fun l => l < length (heap w))
         (option_list (currentTask (this w)) ++ tasks (this w))%list.

#[export] Instance wf_dec (w : World) : Decision (wf w).
Proof. unfold wf. apply _. Defined.

(** ** What one call writes

    The objects a call of [startNewTask] or [sendMessage] builds, as
    functions of the world the call starts in (the clock readings are
    numbered from [ticks w]). *)

(** The message [startNewTask(m)] pushes for a truthy [m]. *)
Definition first_message (w : World) (m : string) : ClineMessage :=
  mkMessage ("msg-" +:+ pretty (clock w (3 + ticks w))) user m
            (clock w (4 + ticks w)) None.

(** The task object after [startNewTask(m)]. *)
Definition new_task (w : World) (m : option string) : ClineTask :=
  mkTask ("task-" +:+ pretty (clock w (ticks w)))
         (match m with
          | Some s => if Js.truthy s then generateTaskTitle s else "New Task"
          | None => "New Task"
          end)
         (match m with
          | Some s => if Js.truthy s then [first_message w s] else []
          | None => []
          end)
         active
         (clock w (1 + ticks w))
         (clock w (2 + ticks w)).

(** Clock readings [startNewTask(m)] takes. *)
Definition start_reads (m : option string) : nat :=
  if Js.truthy_opt m then 5 else 3.

(** The two messages of a [sendMessage(content, images)] call. *)
Definition userMessage (w : World) (c : string) (i : option (list string))
  : ClineMessage :=
  mkMessage ("msg-" +:+ pretty (clock w (ticks w))) user c
            (clock w (1 + ticks w)) (mkMetadata <$> i).

Definition assistantMessage (w : World) (c : string) : ClineMessage :=
  mkMessage ("msg-" +:+ pretty (clock w (3 + ticks w) + 1)%Z) assistant
            (ClineCore.placeholder_reply c) (clock w (4 + ticks w)) None.

(** The current task object after a [sendMessage] call. *)
Definition after_send (w : World) (c : string) (i : option (list string))
    (t : ClineTask) : ClineTask :=
  mkTask (task_id t) (title t)
         (messages t ++ [userMessage w c i; assistantMessage w c])
         (status t) (createdAt t) (clock w (2 + ticks w)).

(** ** The specification's reading of two rules

    The definitions of this module follow the words of the specification,
    not the code; they are what the code is compared with. *)

Module Spec.

(** The whitespace-separated words of a message. *)
Definition words (s : string) : list string := String.words s.

(** "first 6 whitespace-separated words of the message joined by single
    spaces, with a trailing ellipsis appended iff the message contains more
    than 6 words" *)
Definition title (message : string) : string :=
  Js.join " " (take 6 (words message))
    +:+ (if (6 <? length (words message))%nat then "…" else "").

(** "the first override encountered": the first language a code cell
    declares, in display order. *)
Fixpoint first_override (cells : list NotebookCell) : option string :=
  match cells with
  | [] => None
  | cell :: rest =>
      if decide (cell_type cell = "code") then
        match cell_language cell with
        | Some l => if Js.truthy l then Some l else first_override rest
        | None => first_override rest
        end
      else first_override rest
  end.

(** "language defaults to a host-chosen default unless an individual cell
    declares an override, in which case the first override encountered
    wins" *)
Definition language (cells : list NotebookCell) : string :=
  default "python" (first_override cells).

End Spec.

(** A word: not empty, and free of whitespace (space, tab, line feed,
    vertical tab, form feed, carriage return). *)
Fixpoint has_whitespace (s : string) : bool :=
  match s with
  | EmptyString => false
  | String a s' => Ascii.is_space a || has_whitespace s'
  end.

Definition word (w : string) : Prop :=
  w <> "" /\ has_whitespace w = false.

(** ** Concrete worlds

    The configuration and the mock host of the repository's test-suite,
    and three clocks: one that advances at every reading, one that stands
    still (all readings fall in the same millisecond), and one that
    advances once per five readings. *)

Definition test_config : ClineConfig :=
  mkConfig (Some openai) None None (Some "gpt-4") (Some 2000%Z)
           (Some (7 # 10)%Q).

Definition mockJupyterLabAPI : JupyterLabAPI :=
  mkAPI (Some (mkShell None)) (Some []) true.

Definition ticking_clock : nat -> Z := fun n => (1000 + Z.of_nat n)%Z.
Definition frozen_clock : nat -> Z := fun _ => 1700000000000%Z.
Definition slow_clock : nat -> Z := fun n => (1000 + Z.of_nat (n / 5))%Z.

Definition ticking_world : World :=
  new_world ticking_clock test_config mockJupyterLabAPI.
Definition frozen_world : World :=
  new_world frozen_clock test_config mockJupyterLabAPI.
Definition slow_world : World :=
  new_world slow_clock test_config mockJupyterLabAPI.

(** A focused notebook whose first code cell declares ["python"] and whose
    third cell declares ["r"]. *)
Definition polyglot_cells : list NotebookCell :=
  [mkCell "code" "x = 1" (Some "python");
   mkCell "markdown" "notes" None;
   mkCell "code" "y <- 2" (Some "r")].

Definition focus_notebook (cells : list NotebookCell) : JupyterLabAPI :=
  mkAPI (Some (mkShell (Some
           (mkWidget (Some (mkContent (Some (NotebookModel cells)) None))
                     (Some "analysis.ipynb")))))
        None false.

(** ** Shapes of a step *)

(** The world after a command has caught [e] and reported it. *)
Definition logged (text : string) (e : JsError) (w : World) : World :=
  set_console (console w ++ [console_error text e]) w.

Definition no_task : JsError :=
  Error "No active task. Start a new task first.".

(** Two worlds with the same clock, store, current task and task list;
    the configuration, the console and the host may differ. *)
Definition same_tasks (w w' : World) : Prop :=
  clock w' = clock w /\ ticks w' = ticks w /\ heap w' = heap w /\
  currentTask (this w') = currentTask (this w) /\
  tasks (this w') = tasks (this w).

(** [t'] is a later state of the task object [t]: more messages at the end,
    possibly a new [updatedAt], everything else as it was. *)
Definition task_extends (t t' : ClineTask) : Prop :=
  task_id t' = task_id t /\ title t' = title t /\ status t' = status t /\
  createdAt t' = createdAt t /\ messages t `prefix_of` messages t'.

(** [w'] is a later state of the controller [w]. *)
Definition evolves (w w' : World) : Prop :=
  clock w' = clock w /\ ticks w <= ticks w' /\
  tasks (this w) `prefix_of` tasks (this w') /\
  forall l t, heap w !! l = Some t ->
    exists t', heap w' !! l = Some t' /\ task_extends t t'.

(** ** Invariants of the store *)

(** Both dates of every task are clock readings already taken, [createdAt]
    not after [updatedAt] in reading order. *)
Definition stamped (w : World) : Prop :=
  Forall (fun t => exists i j, i <= j /\ j < ticks w /\
                    createdAt t = clock w i /\ updatedAt t = clock w j)
         (heap w).

(** Task ids carry the prefix [task-], message ids the prefix [msg-]. *)
Definition ids_tagged (w : World) : Prop :=
  Forall (fun t => (exists n, task_id t = "task-" +:+ n) /\
                   Forall (fun m => exists n, msg_id m = "msg-" +:+ n)
                          (messages t))
         (heap w).

(** The current task object, if any. *)
Definition current (w : World) : option ClineTask :=
  currentTask (this w) ≫= (fun l => heap w !! l).

(** The text one code cell contributes: its marker line, its source, and
    a blank line; [i] is the cell's index among all cells. *)
Definition cell_block (i : nat) (cell : NotebookCell) : string :=
  "# Cell " +:+ pretty (i + 1) +:+ Js.nl +:+ cell_text cell
  +:+ Js.nl +:+ Js.nl.

(** The blocks of the code cells of a notebook, in display order, the
    first cell of the list having index [i]. *)
Fixpoint code_blocks (cells : list NotebookCell) (i : nat) : string :=
  match cells with
  | [] => ""
  | cell :: rest =>
      (if decide (cell_type cell = "code") then cell_block i cell else "")
      +:+ code_blocks rest (S i)
  end.

(** ** Further invariants and helpers *)

(** [{ ...p, ...q }] on partial configurations: what two successive
    [updateConfig] calls amount to. *)
Definition merge_partial (p q : PartialConfig) : PartialConfig := {|
  p_apiProvider := default (p_apiProvider p) (Some <$> p_apiProvider q);
  p_apiKey := default (p_apiKey p) (Some <$> p_apiKey q);
  p_apiUrl := default (p_apiUrl p) (Some <$> p_apiUrl q);
  p_model := default (p_model p) (Some <$> p_model q);
  p_maxTokens := default (p_maxTokens p) (Some <$> p_maxTokens q);
  p_temperature := default (p_temperature p) (Some <$> p_temperature q)
|}.

(** The partial configuration [{}]. *)
Definition empty_partial : PartialConfig :=
  mkPartial None None None None None None.

(** The shape of every message list the controller builds: an optional
    initial user message, then pairs of a user message and the reply that
    echoes it. *)
Inductive conversation : list ClineMessage -> Prop :=
  | conversation_empty : conversation []
  | conversation_initial first :
      msg_type first = user -> conversation [first]
  | conversation_exchange msgs sent reply :
      conversation msgs ->
      msg_type sent = user ->
      msg_type reply = assistant ->
      msg_content reply = ClineCore.placeholder_reply (msg_content sent) ->
      msg_metadata reply = None ->
      conversation (msgs ++ [sent; reply]).

(** The creation date and the message timestamps of every task are clock
    readings already taken, in strictly increasing reading order. *)
Definition timeline (w : World) : Prop :=
  Forall (fun t => exists c js,
            createdAt t = clock w c /\
            msg_timestamp <$> messages t = clock w <$> js /\
            StronglySorted lt (c :: js) /\
            Forall (fun j => j < ticks w) (c :: js))
         (heap w).

(** The tasks are listed in creation order, each once, and the current
    task is the last one. *)
Definition tasks_listed (w : World) : Prop :=
  tasks (this w) = seq 0 (length (heap w)) /\
  currentTask (this w) = last (tasks (this w)).

(** ** The texts the notebook commands send

    What each command passes to [sendMessage] when its context is there:
    the template literal of the command around the result of its helper. *)

Definition analysis_message : string :=
  "I've analyzed your notebook. Here's what I found:" +:+ Js.nl +:+ Js.nl
  +:+ "Notebook analysis: The notebook contains code cells with data processing logic. Consider adding documentation and error handling.".

Definition explanation_message (code : string) : string :=
  "Here's an explanation of the selected cell:" +:+ Js.nl +:+ Js.nl
  +:+ ("This code performs: "
       +:+ (if (100 <? Js.length code)%nat
            then "complex operations" else "basic operations")
       +:+ ". " +:+ Js.slice0 100 code +:+ "...").

Definition optimized_message (code : string) : string :=
  "Here's the optimized version of your code:" +:+ Js.nl +:+ Js.nl
  +:+ "```python" +:+ Js.nl
  +:+ ("# Optimized version" +:+ Js.nl +:+ code +:+ Js.nl
       +:+ "# TODO: Add actual optimization logic")
  +:+ Js.nl +:+ "```".

(** The commands [registerJupyterLabCommands] adds, in order. *)
Definition cline_commands : list (string * string) :=
  [("cline:analyze-notebook", "Analyze Current Notebook");
   ("cline:explain-cell", "Explain Selected Cell");
   ("cline:optimize-code", "Optimize Code")].

(** A host with a notebook focused, a cell active in it, and some text
    selected in the cell's editor. *)
Definition focus_cell (src selected : string) : JupyterLabAPI :=
  mkAPI (Some (mkShell (Some
           (mkWidget (Some (mkContent
                              (Some (NotebookModel [mkCell "code" src None]))
                              (Some (mkActiveCell src
                                       (Some (mkEditor selected))))))
                     (Some "analysis.ipynb")))))
        (Some []) true.

(** ** More of [getActiveDocument] *)

(** The language the loop over the cells ends with: the first language a
    code cell declares that is not ["python"], if there is one. *)
Fixpoint first_other_language (cells : list NotebookCell) : option string :=
  match cells with
  | [] => None
  | cell :: rest =>
      if decide (cell_type cell = "code") then
        match cell_language cell with
        | Some l =>
            if Js.truthy l && negb (bool_decide (l = "python")) then Some l
            else first_other_language rest
        | None => first_other_language rest
        end
      else first_other_language rest
  end.

(** The property names every object literal inherits from
    [Object.prototype]: looking one of them up in [languageMap] does not
    give [undefined]. *)
Definition Object_prototype_keys : list string :=
  ["constructor"; "hasOwnProperty"; "isPrototypeOf"; "propertyIsEnumerable";
   "toLocaleString"; "toString"; "valueOf"; "__proto__";
   "__defineGetter__"; "__defineSetter__";
   "__lookupGetter__"; "__lookupSetter__"].

(** Whether a plain file is focused whose extension is one of these
    names: the one case in which [languageMap[extension]] is neither a
    language of the table nor [undefined]. *)
Definition inherited_extension (api : JupyterLabAPI) : bool :=
  match shell api ≫= currentWidget with
  | Some widget =>
      match content widget ≫= doc_model with
      | Some (FileModel _) =>
          bool_decide
            (Js.or_else
               (Js.pop (Js.split Js.dot
                          (Js.or_else (context_path widget) "untitled")))
               ""
             ∈ Object_prototype_keys)
      | _ => false
      end
  | None => false
  end.

(** A host with a plain file focused. *)
Definition focus_file (file_path : option string) (text : string)
  : JupyterLabAPI :=
  mkAPI (Some (mkShell (Some
           (mkWidget (Some (mkContent (Some (FileModel text)) None))
                     file_path))))
        None true.

(** ** The other methods of [JupyterLabHostProvider]
    ([host-integration.ts])

    The file and notification services of the host are reached through
    the untyped [jupyterLabAPI]; they are parameters here.  A call of a
    host service is a computation of its own: it may fail, and whatever it
    does to the world is kept. *)

Module HostIO.

(** What [`${error}`] gives for a caught [Error] ([Error.prototype.toString]). *)
Definition show_error (e : JsError) : string :=
  match e with
  | Error m => if Js.truthy m then "Error: " +:+ m else "Error"
  end.

Record DirItem := mkItem { item_name : string }.

(** [response.content]: a text for a file, an array of entries for a
    directory. *)
Inductive Content :=
  | TextContent (text : string)
  | DirContent (items : list DirItem).

Record ContentsModel := mkModel { model_content : Content }.

(** The options [writeFile] passes to [contents.save]. *)
Record SaveOptions := mkSave {
  save_type : string;
  save_format : string;
  save_content : string
}.

Inductive Severity := sev_info | sev_warning | sev_error.

(** [type.toUpperCase()] *)
Definition toUpperCase (type : Severity) : string :=
  match type with
  | sev_info => "INFO"
  | sev_warning => "WARNING"
  | sev_error => "ERROR"
  end.

Record Services := mkServices {
  (* jupyterLabAPI.serviceManager.contents *)
  contents_get : string -> M ContentsModel;
  contents_save : string -> SaveOptions -> M unit;
  contents_getDownloadUrl : string -> M string;
  (* jupyterLabAPI.commands?.notificationManager, when there is one: the
     call [emit(message, type)] itself, whose result is not awaited, so
     that only what the call throws reaches the caller *)
  notificationManager : option (string -> Severity -> M unit);
  (* what [`${error}`] gives for the TypeError the engine raises when
     [serviceManager] is undefined, and when [response.content] has no
     [map] method *)
  shown_no_serviceManager : string;
  shown_not_a_function : string
}.

Definition readFile (svc : Services) (path : string) : M Content :=
  fun w =>
    if serviceManager (jupyterLabAPI w) then
      try_catch
        (response ← contents_get svc path;
         mret (model_content response))
        (fun error =>
           throw (Error ("Failed to read file " +:+ path +:+ ": "
                         +:+ show_error error))) w
    else
      (Throw (Error ("Failed to read file " +:+ path +:+ ": "
                     +:+ shown_no_serviceManager svc)), w).

Definition writeFile (svc : Services) (path content : string) : M unit :=
  fun w =>
    if serviceManager (jupyterLabAPI w) then
      try_catch
        (contents_save svc path
           {| save_type := "file"; save_format := "text";
              save_content := content |})
        (fun error =>
           throw (Error ("Failed to write file " +:+ path +:+ ": "
                         +:+ show_error error))) w
    else
      (Throw (Error ("Failed to write file " +:+ path +:+ ": "
                     +:+ shown_no_serviceManager svc)), w).

Definition listFiles (svc : Services) (directory : string) : M (list string) :=
  fun w =>
    if serviceManager (jupyterLabAPI w) then
      match contents_get svc directory w with
      | (Return response, w') =>
          match model_content response with
          | DirContent items => (Return (item_name <$> items), w')
          | TextContent _ =>
              (Throw (Error ("Failed to list files in " +:+ directory +:+ ": "
                             +:+ shown_not_a_function svc)), w')
          end
      | (Throw error, w') =>
          (Throw (Error ("Failed to list files in " +:+ directory +:+ ": "
                         +:+ show_error error)), w')
      end
    else
      (Throw (Error ("Failed to list files in " +:+ directory +:+ ": "
                     +:+ shown_no_serviceManager svc)), w).

Definition showMessage (svc : Services) (message : string) (type : Severity)
  : M unit :=
  registry ← read (fun w => commands (jupyterLabAPI w));
  match registry, notificationManager svc with
  | Some _, Some emit => emit message type
  | _, _ => console_emit (console_log (toUpperCase type +:+ ": " +:+ message))
  end.

Definition showProgress (title : string) (task : M unit) : M unit :=
  _ ← console_emit (console_log ("Starting: " +:+ title));
  try_catch
    (_ ← task;
     console_emit (console_log ("Completed: " +:+ title)))
    (fun error =>
       _ ← console_emit (console_error ("Failed: " +:+ title) error);
       throw error).

Record CommandResult := mkResult {
  stdout : string;
  stderr : string;
  exitCode : Z
}.

Definition executeCommand (command : string) : M CommandResult :=
  _ ← console_emit (console_log ("Executing command: " +:+ command));
  mret {| stdout := "Mock output for: " +:+ command;
          stderr := "";
          exitCode := 0 |}.

Definition getCurrentWorkspace (svc : Services) : M string :=
  fun w =>
    if serviceManager (jupyterLabAPI w) then
      try_catch (contents_getDownloadUrl svc "./")
                (fun _ => mret "./") w
    else (Return "./", w).

Definition getActiveDocument : M (option JupyterLabHostProvider.Document) :=
  read (fun w => JupyterLabHostProvider.getActiveDocument (jupyterLabAPI w)).

End HostIO.

(** ** [CoreClineController] ([host-integration.ts]) *)

Module CoreClineController.

Definition analyzeContext (svc : HostIO.Services) : M string :=
  workspace ← HostIO.getCurrentWorkspace svc;
  activeDoc ← HostIO.getActiveDocument;
  let analysis := "Current workspace: " +:+ workspace +:+ Js.nl +:+ Js.nl in
  mret (analysis +:+
        match activeDoc with
        | Some doc =>
            "Active document: " +:+ JupyterLabHostProvider.path doc +:+ Js.nl
            +:+ "Language: " +:+ JupyterLabHostProvider.language doc +:+ Js.nl
            +:+ "Content preview:" +:+ Js.nl
            +:+ Js.slice0 500 (JupyterLabHostProvider.doc_content doc)
            +:+ "..." +:+ Js.nl
        | None => "No active document found." +:+ Js.nl
        end).

Definition executeTask (svc : HostIO.Services) (task : string) : M string :=
  _ ← HostIO.showMessage svc ("Starting task: " +:+ task) HostIO.sev_info;
  context ← analyzeContext svc;
  mret ("Task completed: " +:+ task +:+ Js.nl +:+ Js.nl
        +:+ "Context analysis:" +:+ Js.nl +:+ context).

End CoreClineController.

(** A contents service over a fixed table of files: reading a listed
    path gives its text, anything else is not found; saving is accepted. *)
Definition table_services (files : list (string * string)) : HostIO.Services :=
  {| HostIO.contents_get := fun path =>
       match JupyterLabHostProvider.assoc path files with
       | Some text => mret (HostIO.mkModel (HostIO.TextContent text))
       | None => throw (Error "File not found")
       end;
     HostIO.contents_save := fun _ _ => mret tt;
     HostIO.contents_getDownloadUrl := fun path => mret ("/files/" +:+ path);
     HostIO.notificationManager := None;
     HostIO.shown_no_serviceManager :=
       "TypeError: Cannot read properties of undefined (reading 'contents')";
     HostIO.shown_not_a_function :=
       "TypeError: response.content.map is not a function" |}.

(** The current task, when there is one, is the newest object of the
    store. *)
Definition newest_is_current (w : World) : Prop :=
  forall l, currentTask (this w) = Some l -> S l = length (heap w).

(** Where a task's title comes from: the default, or the content of the
    message the task was started with. *)
Definition titled_by_first_message (t : ClineTask) : Prop :=
  title t = "New Task" \/
  exists first,
    messages t !! 0 = Some first /\
    title t = generateTaskTitle (msg_content first).


(** * Properties *)

(** ** Strings *)

Lemma string_app_cons (x : Ascii.ascii) (a b : string) :
  String x a +:+ b = String x (a +:+ b).
Proof. reflexivity. Qed.

Lemma string_app_assoc (a b c : string) : (a +:+ b) +:+ c = a +:+ (b +:+ c).
Proof.
  induction a as [|x a IH]; [done|]. by rewrite !string_app_cons, IH.
Qed.

Lemma string_app_nil_r (a : string) : a +:+ "" = a.
Proof. induction a as [|x a IH]; [done|]. by rewrite string_app_cons, IH. Qed.

Lemma split_cons sep s : exists seg segs, Js.split sep s = seg :: segs.
Proof.
  induction s as [|c s IH]; simpl; [eauto|].
  destruct (decide (c = sep)); [eauto|].
  destruct IH as (seg & segs & ->). eauto.
Qed.

Lemma length_split sep s : length (Js.split sep s) = S (Js.count sep s).
Proof.
  induction s as [|c s IH]; simpl; [done|].
  destruct (decide (c = sep)); simpl; [by rewrite IH|].
  destruct (split_cons sep s) as (seg & segs & E). rewrite E in IH |- *. done.
Qed.

Lemma join_cons sep x y rest :
  Js.join sep (x :: y :: rest) = x +:+ sep +:+ Js.join sep (y :: rest).
Proof. reflexivity. Qed.

Lemma join_split sep s : Js.join (String sep EmptyString) (Js.split sep s) = s.
Proof.
  induction s as [|c s IH]; [done|].
  destruct (split_cons sep s) as (seg & segs & E).
  cbn [Js.split]. rewrite E in IH |- *.
  destruct (decide (c = sep)) as [->|].
  - rewrite join_cons, IH. done.
  - destruct segs as [|seg' segs].
    + cbn in *. by rewrite IH.
    + rewrite join_cons in *. rewrite <- IH. done.
Qed.

Lemma join_app sep (xs ys : list string) : xs <> [] -> ys <> [] ->
  Js.join sep (xs ++ ys) = Js.join sep xs +:+ sep +:+ Js.join sep ys.
Proof.
  intros Hx Hy. induction xs as [|x xs IH]; [done|].
  destruct xs as [|x' xs].
  - destruct ys; done.
  - change ((x :: x' :: xs) ++ ys)%list with (x :: x' :: (xs ++ ys))%list.
    rewrite !join_cons.
    change (x' :: (xs ++ ys))%list with ((x' :: xs) ++ ys)%list.
    rewrite IH by done. by rewrite !string_app_assoc.
Qed.

(** No segment of a split contains the separator. *)
Lemma split_segments sep s :
  Forall (fun seg => Js.count sep seg = 0) (Js.split sep s).
Proof.
  induction s as [|c s IH]; cbn [Js.split].
  - by repeat constructor.
  - destruct (decide (c = sep)) as [->|Hc].
    + by constructor.
    + destruct (Js.split sep s) as [|seg segs]; [by repeat constructor; cbn; rewrite decide_False|].
      inversion IH; subst. constructor; [|done].
      cbn. by rewrite decide_False.
Qed.

Lemma truthy_nonempty s : Js.truthy s = true <-> s <> "".
Proof. destruct s; cbn; split; congruence. Qed.

Lemma split_app_sep sep (a b : string) :
  Js.split sep (a +:+ String sep b) = (Js.split sep a ++ Js.split sep b)%list.
Proof.
  induction a as [|c a IH].
  - change (Js.split sep (String sep b) = EmptyString :: Js.split sep b).
    cbn [Js.split]. by rewrite decide_True.
  - rewrite string_app_cons. cbn [Js.split]. rewrite IH.
    destruct (decide (c = sep)); [done|].
    by destruct (split_cons sep a) as (seg & segs & ->).
Qed.

Lemma split_no_sep sep s : Js.count sep s = 0 -> Js.split sep s = [s].
Proof.
  induction s as [|c s IH]; [done|]. cbn.
  destruct (decide (c = sep)); [done|]. intros H. by rewrite IH.
Qed.

Lemma split_join sep (xs : list string) :
  xs <> [] -> Forall (fun seg => Js.count sep seg = 0) xs ->
  Js.split sep (Js.join (String sep EmptyString) xs) = xs.
Proof.
  intros Hne H. induction H as [|x xs Hx Hxs IH]; [done|].
  destruct xs as [|y xs].
  - by apply split_no_sep.
  - rewrite join_cons.
    change (x +:+ String sep EmptyString +:+ Js.join (String sep EmptyString) (y :: xs))
      with (x +:+ String sep (Js.join (String sep EmptyString) (y :: xs))).
    rewrite split_app_sep, IH by done. by rewrite split_no_sep.
Qed.

(** ** Words *)

Lemma word_no_space w : has_whitespace w = false -> Js.count Js.space w = 0.
Proof.
  induction w as [|a w IH]; [done|]. cbn.
  intros [Ha Hw]%orb_false_elim. rewrite IH by done.
  destruct (decide (a = Js.space)) as [->|]; [done|lia].
Qed.

Lemma rev_app_rev_app (a b c : string) :
  String.rev_app (String.rev_app a b) c = String.rev_app b (a +:+ c).
Proof.
  revert b c. induction a as [|x a IH]; intros b c; [done|].
  cbn [String.rev_app]. by rewrite IH.
Qed.

Lemma words_go_word w cur rest :
  w <> "" -> has_whitespace w = false ->
  String.words_go cur (w +:+ rest)
  = String.words_go (Some (String.rev_app w (default "" cur))) rest.
Proof.
  revert cur. induction w as [|a w IH]; intros cur Hne Hw; [done|].
  cbn in Hw. apply orb_false_elim in Hw as [Ha Hw].
  rewrite string_app_cons. cbn [String.words_go]. rewrite Ha.
  assert (E : from_option (String a) (String a "") cur
              = String a (default "" cur)) by (by destruct cur).
  rewrite E. destruct w as [|b w]; [done|].
  by rewrite IH.
Qed.

(** The whitespace-separated words of words joined by single spaces are
    these words. *)
Lemma words_join ws :
  Forall word ws -> Spec.words (Js.join " " ws) = ws.
Proof.
  unfold Spec.words, String.words.
  induction 1 as [|w ws [Hne Hw] Hws IH]; [done|].
  destruct ws as [|w' ws].
  - cbn [Js.join]. rewrite <- (string_app_nil_r w) at 1.
    rewrite words_go_word by done. cbn.
    unfold String.rev. by rewrite rev_app_rev_app, string_app_nil_r.
  - rewrite join_cons.
    change (w +:+ " " +:+ Js.join " " (w' :: ws))
      with (w +:+ String Js.space (Js.join " " (w' :: ws))).
    rewrite words_go_word by done.
    cbn [String.words_go]. change (Ascii.is_space Js.space) with true.
    cbv iota. rewrite IH. cbn.
    unfold String.rev. by rewrite rev_app_rev_app, string_app_nil_r.
Qed.

Lemma join_words_truthy ws :
  ws <> [] -> Forall word ws -> Js.truthy (Js.join " " ws) = true.
Proof.
  intros Hne H. destruct H as [|w ws [Hw _] _]; [done|].
  destruct w; [done|]. by destruct ws.
Qed.

(** The title in terms of the number of spaces of the message. *)
Lemma generateTaskTitle_short m :
  Js.count Js.space m <= 5 -> generateTaskTitle m = m.
Proof.
  intros Hc. unfold generateTaskTitle.
  pose proof (length_split Js.space m) as Hl.
  rewrite take_ge by lia.
  replace (6 <? _)%nat with false by (symmetry; apply Nat.ltb_ge; lia).
  rewrite string_app_nil_r. apply (join_split Js.space).
Qed.

Lemma generateTaskTitle_long m :
  5 < Js.count Js.space m ->
  exists rest,
    m = Js.join " " (take 6 (Js.split Js.space m)) +:+ " " +:+ rest /\
    generateTaskTitle m = Js.join " " (take 6 (Js.split Js.space m)) +:+ "...".
Proof.
  intros Hc. unfold generateTaskTitle.
  pose proof (length_split Js.space m) as Hl.
  replace (6 <? _)%nat with true by (symmetry; apply Nat.ltb_lt; lia).
  exists (Js.join " " (drop 6 (Js.split Js.space m))). split; [|done].
  rewrite <- (join_app " ").
  - rewrite take_drop. symmetry. apply (join_split Js.space).
  - intros E. apply (f_equal length) in E. rewrite length_take in E. cbn [length] in E. lia.
  - intros E. apply (f_equal length) in E. rewrite length_drop in E. cbn [length] in E. lia.
Qed.

(** ** What each method does to the world *)

Lemma sendMessage_throw w c i :
  currentTask (this w) = None ->
  ClineCore.sendMessage c i w
  = (Throw (Error "No active task. Start a new task first."), w).
Proof.
  intros H. unfold ClineCore.sendMessage, mbind, M_bind, read.
  by rewrite H.
Qed.

Lemma sendMessage_run w c i l :
  currentTask (this w) = Some l ->
  ClineCore.sendMessage c i w
  = (Return (assistantMessage w c),
     set_ticks (5 + ticks w)
       (set_heap (alter (after_send w c i) l (heap w)) w)).
Proof.
  intros H. unfold ClineCore.sendMessage, mbind, M_bind, read. rewrite H.
  destruct w as [clk n h con th api]. cbn.
  f_equal. unfold set_ticks, set_heap. cbn. f_equal.
  rewrite !list_alter_alter_eq. apply list_alter_ext; [|done].
  intros t _. unfold after_send, userMessage, assistantMessage. cbn.
  by rewrite <- app_assoc.
Qed.

Lemma startNewTask_run w m :
  ClineCore.startNewTask m w
  = (Return (length (heap w)),
     mkWorld (clock w) (start_reads m + ticks w)
             (heap w ++ [new_task w m]) (console w)
             (mkCore (config (this w)) (Some (length (heap w)))
                     (tasks (this w) ++ [length (heap w)]))
             (jupyterLabAPI w)).
Proof.
  destruct w as [clk n h con th api].
  unfold ClineCore.startNewTask, mbind, M_bind, new_task, start_reads.
  destruct m as [[|c s]|]; cbn; try reflexivity.
  unfold set_heap, set_this; cbn. do 2 f_equal.
  rewrite <- (Nat.add_0_r (length h)) at 1.
  by rewrite alter_app_r.
Qed.



Lemma sendMessage_caught w c text :
  try_catch (_ ← ClineCore.sendMessage c None; mret tt)
            (fun error => console_emit (console_error text error)) w
  = match currentTask (this w) with
    | None => (Return tt, logged text no_task w)
    | Some _ => (Return tt, snd (ClineCore.sendMessage c None w))
    end.
Proof.
  unfold try_catch, mbind, M_bind.
  destruct (currentTask (this w)) as [l|] eqn:E.
  - by rewrite (sendMessage_run _ _ _ l).
  - by rewrite sendMessage_throw.
Qed.

(** Each command either reports a missing context, or reports that there is
    no current task, or is exactly one [sendMessage] call. *)
Lemma analyzeCurrentNotebook_run w :
  match fst (ClineJupyterLabAdapter.getCurrentNotebook w) with
  | Return None =>
      ClineJupyterLabAdapter.analyzeCurrentNotebook w
      = (Return tt, logged "Failed to analyze notebook:"
                           (Error "No active notebook found") w)
  | _ =>
      match currentTask (this w) with
      | None =>
          ClineJupyterLabAdapter.analyzeCurrentNotebook w
          = (Return tt, logged "Failed to analyze notebook:" no_task w)
      | Some _ =>
          exists c,
            ClineJupyterLabAdapter.analyzeCurrentNotebook w
            = (Return tt, snd (ClineCore.sendMessage c None w))
      end
  end.
Proof.
  pose proof (sendMessage_caught w) as S.
  unfold ClineJupyterLabAdapter.analyzeCurrentNotebook,
    ClineJupyterLabAdapter.getCurrentNotebook, read. cbn [fst].
  destruct (shell (jupyterLabAPI w) ≫= currentWidget) as [nb|] eqn:E.
  - destruct (currentTask (this w)); [eexists|];
      unfold try_catch, mbind at 1, M_bind at 1; rewrite E; apply S.
  - unfold try_catch, mbind at 1, M_bind at 1. by rewrite E.
Qed.

Lemma explainSelectedCell_run w :
  match fst (ClineJupyterLabAdapter.getSelectedCell w) with
  | Return None =>
      ClineJupyterLabAdapter.explainSelectedCell w
      = (Return tt, logged "Failed to explain cell:"
                           (Error "No cell selected") w)
  | _ =>
      match currentTask (this w) with
      | None =>
          ClineJupyterLabAdapter.explainSelectedCell w
          = (Return tt, logged "Failed to explain cell:" no_task w)
      | Some _ =>
          exists c,
            ClineJupyterLabAdapter.explainSelectedCell w
            = (Return tt, snd (ClineCore.sendMessage c None w))
      end
  end.
Proof.
  pose proof (sendMessage_caught w) as S.
  unfold ClineJupyterLabAdapter.explainSelectedCell.
  destruct (ClineJupyterLabAdapter.getSelectedCell w) as [r w1] eqn:G.
  assert (w1 = w) as -> by (by inversion G).
  cbn [fst].
  destruct r as [[cell|]|e].
  - destruct (currentTask (this w)); [eexists|];
      unfold try_catch, mbind at 1, M_bind at 1; rewrite G; apply S.
  - unfold try_catch, mbind at 1, M_bind at 1. by rewrite G.
  - inversion G.
Qed.

Lemma optimizeSelectedCode_run w :
  match fst (ClineJupyterLabAdapter.getSelectedCode w) with
  | Return None =>
      ClineJupyterLabAdapter.optimizeSelectedCode w
      = (Return tt, logged "Failed to optimize code:"
                           (Error "No code selected") w)
  | _ =>
      match currentTask (this w) with
      | None =>
          ClineJupyterLabAdapter.optimizeSelectedCode w
          = (Return tt, logged "Failed to optimize code:" no_task w)
      | Some _ =>
          exists c,
            ClineJupyterLabAdapter.optimizeSelectedCode w
            = (Return tt, snd (ClineCore.sendMessage c None w))
      end
  end.
Proof.
  pose proof (sendMessage_caught w) as S.
  unfold ClineJupyterLabAdapter.optimizeSelectedCode.
  destruct (ClineJupyterLabAdapter.getSelectedCode w) as [r w1] eqn:G.
  assert (w1 = w) as -> by (by inversion G).
  cbn [fst].
  destruct r as [[code|]|e].
  - destruct (currentTask (this w)); [eexists|];
      unfold try_catch, mbind at 1, M_bind at 1; rewrite G; apply S.
  - unfold try_catch, mbind at 1, M_bind at 1. by rewrite G.
  - inversion G.
Qed.

(** ** Every step is one of three shapes *)

Lemma same_tasks_logged text e w : same_tasks w (logged text e w).
Proof. by repeat split. Qed.

Lemma initialize_same_tasks w :
  same_tasks w (ignore ClineJupyterLabAdapter.initialize w).
Proof.
  destruct w as [clk n h con th [sh [reg|] [|]]]; by repeat split.
Qed.

Lemma step_cases o w :
  same_tasks w (step o w) \/
  (exists m, o = call_startNewTask m) \/
  (exists c i l, currentTask (this w) = Some l /\
                 step o w = snd (ClineCore.sendMessage c i w)).
Proof.
  destruct o as [|m|c i| | |p| | | |sh]; cbn [step]; unfold ignore.
  - left. apply initialize_same_tasks.
  - right; left. by exists m.
  - destruct (currentTask (this w)) as [l|] eqn:C.
    + right; right. by exists c, i, l.
    + left. rewrite sendMessage_throw by done. by repeat split.
  - left. by repeat split.
  - left. by repeat split.
  - left. by repeat split.
  - pose proof (analyzeCurrentNotebook_run w) as R.
    destruct (fst (ClineJupyterLabAdapter.getCurrentNotebook w)) as [[nb|]|e];
      [| rewrite R; left; apply same_tasks_logged |];
      (destruct (currentTask (this w)) as [l|] eqn:C;
       [ destruct R as [c ->]; right; right; by exists c, None, l
       | rewrite R; left; apply same_tasks_logged ]).
  - pose proof (explainSelectedCell_run w) as R.
    destruct (fst (ClineJupyterLabAdapter.getSelectedCell w)) as [[nb|]|e];
      [| rewrite R; left; apply same_tasks_logged |];
      (destruct (currentTask (this w)) as [l|] eqn:C;
       [ destruct R as [c ->]; right; right; by exists c, None, l
       | rewrite R; left; apply same_tasks_logged ]).
  - pose proof (optimizeSelectedCode_run w) as R.
    destruct (fst (ClineJupyterLabAdapter.getSelectedCode w)) as [[nb|]|e];
      [| rewrite R; left; apply same_tasks_logged |];
      (destruct (currentTask (this w)) as [l|] eqn:C;
       [ destruct R as [c ->]; right; right; by exists c, None, l
       | rewrite R; left; apply same_tasks_logged ]).
  - left. by repeat split.
Qed.

Lemma run_snoc ops o w : run (ops ++ [o]) w = step o (run ops w).
Proof. unfold run. by rewrite foldl_snoc. Qed.

Lemma run_cons o ops w : run (o :: ops) w = run ops (step o w).
Proof. reflexivity. Qed.

(** An invariant of the three shapes is an invariant of every sequence of
    calls. *)
Lemma run_ind (P : World -> Prop) :
  (forall w w', P w -> same_tasks w w' -> P w') ->
  (forall w m, P w -> P (snd (ClineCore.startNewTask m w))) ->
  (forall w c i l, P w -> currentTask (this w) = Some l ->
                   P (snd (ClineCore.sendMessage c i w))) ->
  forall ops w, P w -> P (run ops w).
Proof.
  intros Hsame Hstart Hsend ops. induction ops as [|o ops IH]; intros w Hw.
  - exact Hw.
  - rewrite run_cons. apply IH.
    destruct (step_cases o w) as [S|[(m & ->)|(c & i & l & C & ->)]]; cbn [step]; unfold ignore; eauto.
Qed.

(** The same for a relation between the world before and the world after. *)
Lemma run_rel_ind (R : World -> World -> Prop) :
  (forall w, R w w) ->
  (forall w1 w2 w3, R w1 w2 -> R w2 w3 -> R w1 w3) ->
  (forall w w', same_tasks w w' -> R w w') ->
  (forall w m, R w (snd (ClineCore.startNewTask m w))) ->
  (forall w c i l, currentTask (this w) = Some l ->
                   R w (snd (ClineCore.sendMessage c i w))) ->
  forall ops w, R w (run ops w).
Proof.
  intros Hrefl Htrans Hsame Hstart Hsend ops.
  induction ops as [|o ops IH]; intros w; [apply Hrefl|].
  rewrite run_cons. apply Htrans with (step o w); [|apply IH].
  destruct (step_cases o w) as [S|[(m & ->)|(c & i & l & C & ->)]]; cbn [step]; unfold ignore; eauto.
Qed.

(** ** Well-formed worlds *)

Lemma wf_new clk cfg api : wf (new_world clk cfg api).
Proof. unfold wf. cbn. constructor. Qed.

Lemma wf_run ops w : wf w -> wf (run ops w).
Proof.
  revert w. apply run_ind.
  - intros w w' Hw (_ & _ & Hh & Hc & Ht). unfold wf in *.
    by rewrite Hh, Hc, Ht.
  - intros w m Hw. rewrite startNewTask_run. unfold wf in *. cbn.
    rewrite length_app. cbn. constructor; [lia|].
    apply Forall_app. split.
    + apply Forall_app in Hw as [_ Hw].
      eapply Forall_impl; [exact Hw|]. cbn. intros; lia.
    + repeat constructor. lia.
  - intros w c i l Hw C. rewrite (sendMessage_run _ _ _ l C).
    unfold wf in *. cbn. by rewrite length_alter.
Qed.

Lemma wf_current w l :
  wf w -> currentTask (this w) = Some l -> exists t, heap w !! l = Some t.
Proof.
  unfold wf. intros Hw C. rewrite C in Hw. cbn in Hw.
  inversion Hw; subst. by apply lookup_lt_is_Some_2.
Qed.

(** ** Later states *)

Lemma task_extends_refl t : task_extends t t.
Proof. by repeat split. Qed.

Lemma task_extends_trans t1 t2 t3 :
  task_extends t1 t2 -> task_extends t2 t3 -> task_extends t1 t3.
Proof.
  intros (?&?&?&?&?) (?&?&?&?&?). repeat split; try congruence.
  by etrans.
Qed.

Lemma evolves_refl w : evolves w w.
Proof.
  repeat split; [lia|done|]. intros l t H. exists t. split; [done|].
  apply task_extends_refl.
Qed.

Lemma evolves_trans w1 w2 w3 : evolves w1 w2 -> evolves w2 w3 -> evolves w1 w3.
Proof.
  intros (C1 & T1 & P1 & H1) (C2 & T2 & P2 & H2).
  repeat split; [congruence|lia|by etrans|].
  intros l t Hl. destruct (H1 l t Hl) as (t' & Hl' & E1).
  destruct (H2 l t' Hl') as (t'' & Hl'' & E2).
  exists t''. split; [done|]. by eapply task_extends_trans.
Qed.

Lemma evolves_same_tasks w w' : same_tasks w w' -> evolves w w'.
Proof.
  intros (Hc & Ht & Hh & _ & Hl). repeat split; [done|lia|by rewrite Hl|].
  intros l t H. exists t. rewrite Hh. split; [done|apply task_extends_refl].
Qed.

Lemma evolves_startNewTask w m : evolves w (snd (ClineCore.startNewTask m w)).
Proof.
  rewrite startNewTask_run. cbn. repeat split; cbn; [lia|by apply prefix_app_r|].
  intros l t H. exists t. split; [|apply task_extends_refl].
  by apply lookup_app_l_Some.
Qed.

Lemma evolves_sendMessage w c i l :
  currentTask (this w) = Some l ->
  evolves w (snd (ClineCore.sendMessage c i w)).
Proof.
  intros C. rewrite (sendMessage_run _ _ _ l C). cbn.
  repeat split; cbn; [lia|done|].
  intros l' t H. destruct (decide (l = l')) as [->|Hne].
  - rewrite list_lookup_alter_eq, H. cbn. eexists. split; [done|].
    repeat split. cbn. by apply prefix_app_r.
  - rewrite list_lookup_alter_ne by done.
    exists t. split; [done|apply task_extends_refl].
Qed.

Lemma evolves_run ops w : evolves w (run ops w).
Proof.
  revert w. apply run_rel_ind;
    eauto using evolves_refl, evolves_trans, evolves_same_tasks,
                evolves_startNewTask, evolves_sendMessage.
Qed.

(** ** Sending a message *)

(** C1: when a current task exists, [sendMessage(content, images?)] appends
    to it exactly one user message (its metadata is [{ images }] when images
    were supplied and is absent otherwise) followed by exactly one assistant
    message, and returns that assistant message; no other task is touched.
    After [startNewTask("x")] and [sendMessage("y")] the current task holds
    exactly three messages: the initial user message, the new user message
    and the assistant reply, in that order. *)
Theorem C1_sendMessage_appends_user_then_assistant :
  (forall w content imgs l,
      wf w -> currentTask (this w) = Some l ->
      exists t sent reply w',
        heap w !! l = Some t /\
        ClineCore.sendMessage content imgs w = (Return reply, w') /\
        currentTask (this w') = Some l /\
        messages <$> heap w' !! l = Some (messages t ++ [sent; reply])%list /\
        msg_type sent = user /\ msg_content sent = content /\
        msg_metadata sent = mkMetadata <$> imgs /\
        msg_type reply = assistant /\
        (forall l', l' <> l -> heap w' !! l' = heap w !! l')) /\
  (forall w,
      exists t first second reply w1 w2,
        ClineCore.startNewTask (Some "x") w = (Return t, w1) /\
        ClineCore.sendMessage "y" None w1 = (Return reply, w2) /\
        currentTask (this w2) = Some t /\
        messages <$> heap w2 !! t = Some [first; second; reply] /\
        msg_type first = user /\ msg_content first = "x" /\
        msg_type second = user /\ msg_content second = "y" /\
        msg_metadata second = None /\
        msg_type reply = assistant).
Proof.
  split.
  - intros w content imgs l Hw C.
    destruct (wf_current w l Hw C) as [t Ht].
    exists t, (userMessage w content imgs), (assistantMessage w content).
    eexists. split; [done|]. split; [by apply sendMessage_run|].
    cbn. split; [done|]. split.
    + by rewrite list_lookup_alter_eq, Ht.
    + repeat split. intros l' Hne. by rewrite list_lookup_alter_ne.
  - intros w. rewrite startNewTask_run.
    set (w1 := mkWorld _ _ _ _ _ _).
    exists (length (heap w)), (first_message w "x"),
      (userMessage w1 "y" None), (assistantMessage w1 "y").
    do 2 eexists. split; [done|].
    split; [by apply (sendMessage_run w1 "y" None (length (heap w)))|].
    cbn. split; [done|]. split; [|done].
    rewrite list_lookup_alter_eq.
    rewrite lookup_app_r by lia. by rewrite Nat.sub_diag.
Qed.

Lemma C1_witness :
  let w := snd (ClineCore.startNewTask (Some "Initial task") ticking_world) in
  wf w /\ currentTask (this w) = Some 0 /\
  exists t sent reply w',
    heap w !! 0 = Some t /\
    ClineCore.sendMessage "Hello, Cline!" (Some ["plot.png"]) w
    = (Return reply, w') /\
    currentTask (this w') = Some 0 /\
    messages <$> heap w' !! 0 = Some (messages t ++ [sent; reply])%list /\
    msg_type sent = user /\ msg_content sent = "Hello, Cline!" /\
    msg_metadata sent = mkMetadata <$> Some ["plot.png"] /\
    msg_type reply = assistant /\
    (forall l', l' <> 0 -> heap w' !! l' = heap w !! l').
Proof.
  cbv zeta.
  assert (Hw : wf (snd (ClineCore.startNewTask (Some "Initial task")
                                               ticking_world))).
  { unfold wf. cbn. repeat constructor. }
  split; [exact Hw|]. split; [reflexivity|].
  exact (proj1 C1_sendMessage_appends_user_then_assistant _
               "Hello, Cline!" (Some ["plot.png"]) 0 Hw eq_refl).
Defined.

(** C2: with no current task, [sendMessage] throws the no-active-task error
    before touching anything: the world after the call is the world before
    it (task list, current-task pointer, every task object, clock).  In
    particular, as long as [startNewTask] has not been called there is no
    current task, the call fails, and the task list is still empty. *)
Theorem C2_sendMessage_without_task_fails_unchanged :
  (forall w content imgs,
      currentTask (this w) = None ->
      ClineCore.sendMessage content imgs w
      = (Throw (Error "No active task. Start a new task first."), w)) /\
  (forall clk cfg api ops content imgs,
      (forall m, call_startNewTask m ∉ ops) ->
      let w := run ops (new_world clk cfg api) in
      ClineCore.sendMessage content imgs w
      = (Throw (Error "No active task. Start a new task first."), w) /\
      fst (ClineCore.getTasks (snd (ClineCore.sendMessage content imgs w)))
      = Return [] /\
      heap w = []).
Proof.
  split; [intros; by apply sendMessage_throw|].
  intros clk cfg api ops content imgs Hops. cbv zeta.
  assert (I : currentTask (this (run ops (new_world clk cfg api))) = None /\
              tasks (this (run ops (new_world clk cfg api))) = [] /\
              heap (run ops (new_world clk cfg api)) = []).
  { induction ops as [|o ops IH] using rev_ind; [done|].
    rewrite run_snoc.
    destruct IH as (C & T & H).
    { intros m Hm. apply (Hops m). apply elem_of_app. by left. }
    destruct (step_cases o (run ops (new_world clk cfg api)))
      as [(_ & _ & Hh & Hc & Ht)|[(m & ->)|(c & i & l & C' & _)]].
    - by rewrite Hh, Hc, Ht.
    - exfalso. apply (Hops m). apply elem_of_app. right. by constructor.
    - congruence. }
  destruct I as (C & T & H).
  rewrite sendMessage_throw by done. cbn. by rewrite T, H.
Qed.

Lemma C2_witness :
  let ops := [call_initialize; call_getTasks; cmd_analyze_notebook] in
  let w := run ops ticking_world in
  (forall m, call_startNewTask m ∉ ops) /\
  currentTask (this w) = None /\
  ClineCore.sendMessage "Test message" None w
  = (Throw (Error "No active task. Start a new task first."), w) /\
  fst (ClineCore.getTasks (snd (ClineCore.sendMessage "Test message" None w)))
  = Return [] /\
  heap w = [].
Proof.
  cbv zeta.
  assert (Hops : forall m, call_startNewTask m
                   ∉ [call_initialize; call_getTasks; cmd_analyze_notebook]).
  { intros m Hm. repeat (apply elem_of_cons in Hm as [Hm|Hm]; [discriminate|]).
    by apply elem_of_nil in Hm. }
  split; [exact Hops|]. split; [reflexivity|].
  exact (proj2 C2_sendMessage_without_task_fails_unchanged
               ticking_clock test_config mockJupyterLabAPI _
               "Test message" None Hops).
Defined.

(** ** Starting a task *)

(** C4: for a non-empty [m], [startNewTask(m)] returns a task with exactly
    one message, whose content is [m] and whose role is user;
    [startNewTask()] returns a task with no message and the title
    "New Task".  Either way the task is new, active, current, and appended
    to the task list. *)
Theorem C4_startNewTask_result :
  (forall w m,
      m <> "" ->
      exists t task first w',
        ClineCore.startNewTask (Some m) w = (Return t, w') /\
        heap w !! t = None /\ heap w' !! t = Some task /\
        messages task = [first] /\
        msg_content first = m /\ msg_type first = user /\
        status task = active /\
        currentTask (this w') = Some t /\
        tasks (this w') = (tasks (this w) ++ [t])%list) /\
  (forall w,
      exists t task w',
        ClineCore.startNewTask None w = (Return t, w') /\
        heap w !! t = None /\ heap w' !! t = Some task /\
        messages task = [] /\ title task = "New Task" /\
        status task = active /\
        currentTask (this w') = Some t /\
        tasks (this w') = (tasks (this w) ++ [t])%list).
Proof.
  split.
  - intros w m Hm. rewrite startNewTask_run.
    exists (length (heap w)), (new_task w (Some m)), (first_message w m).
    eexists. split; [done|]. cbn.
    split; [by apply lookup_ge_None_2|].
    split; [by rewrite lookup_app_r, Nat.sub_diag by lia|].
    apply truthy_nonempty in Hm. by rewrite Hm.
  - intros w. rewrite startNewTask_run.
    exists (length (heap w)), (new_task w None).
    eexists. split; [done|]. cbn.
    split; [by apply lookup_ge_None_2|].
    split; [by rewrite lookup_app_r, Nat.sub_diag by lia|done].
Qed.

Lemma C4_witness :
  "Test task" <> "" /\
  exists t task first w',
    ClineCore.startNewTask (Some "Test task") ticking_world = (Return t, w') /\
    heap ticking_world !! t = None /\ heap w' !! t = Some task /\
    messages task = [first] /\
    msg_content first = "Test task" /\ msg_type first = user /\
    status task = active /\
    currentTask (this w') = Some t /\
    tasks (this w') = (tasks (this ticking_world) ++ [t])%list.
Proof.
  assert (H : "Test task" <> "") by discriminate.
  split; [exact H|].
  exact (proj1 C4_startNewTask_result ticking_world "Test task" H).
Defined.

(** C10: [startNewTask("")] is [startNewTask()]: the empty string is
    falsy, so the task has no message and the title "New Task". *)
Theorem C10_empty_string_is_no_message :
  forall w,
    ClineCore.startNewTask (Some "") w = ClineCore.startNewTask None w /\
    exists t task w',
      ClineCore.startNewTask (Some "") w = (Return t, w') /\
      heap w' !! t = Some task /\
      messages task = [] /\ title task = "New Task".
Proof.
  intros w. split; [by rewrite !startNewTask_run|].
  rewrite startNewTask_run.
  exists (length (heap w)), (new_task w (Some "")). eexists.
  split; [done|]. cbn.
  split; [by rewrite lookup_app_r, Nat.sub_diag by lia|done].
Qed.

(** C3, as the code has it: for every message made of one or more words
    (non-empty, free of whitespace) separated by single spaces, the title
    of [startNewTask(m)] is the first 6 whitespace-separated words of [m]
    joined by single spaces, with three ASCII dots appended iff [m] has
    more than 6 words, and no dots when it has 6 or fewer.
    [startNewTask("a b c d e f")] is titled "a b c d e f" and
    [startNewTask("a b c d e f g")] is titled "a b c d e f...". *)
Theorem C3_title_of_single_spaced_message :
  forall w,
    let titled (m expected : string) :=
      exists t task w',
        ClineCore.startNewTask (Some m) w = (Return t, w') /\
        heap w' !! t = Some task /\
        title task = expected in
    (forall ws,
        ws <> [] -> Forall word ws ->
        Spec.words (Js.join " " ws) = ws /\
        titled (Js.join " " ws)
               (Js.join " " (take 6 ws)
                +:+ (if (6 <? length ws)%nat then "..." else ""))) /\
    titled "a b c d e f" "a b c d e f" /\
    titled "a b c d e f g" "a b c d e f...".
Proof.
  intros w titled. subst titled. cbv beta.
  assert (T : forall m, Js.truthy m = true ->
            exists t task w',
              ClineCore.startNewTask (Some m) w = (Return t, w') /\
              heap w' !! t = Some task /\
              title task = generateTaskTitle m).
  { intros m Hm. rewrite startNewTask_run.
    exists (length (heap w)), (new_task w (Some m)). eexists.
    split; [done|]. cbn.
    split; [by rewrite lookup_app_r, Nat.sub_diag by lia|].
    by rewrite Hm. }
  split; [|split; by apply T].
  intros ws Hne Hws. split; [by apply words_join|].
  destruct (T (Js.join " " ws) (join_words_truthy ws Hne Hws))
    as (t & task & w' & E & L & Ht).
  exists t, task, w'. split; [done|]. split; [done|].
  assert (Sp : Js.split Js.space (Js.join " " ws) = ws).
  { apply (split_join Js.space ws Hne).
    eapply Forall_impl; [exact Hws|]. intros x [_ Hx]. by apply word_no_space. }
  rewrite Ht. unfold generateTaskTitle. by rewrite Sp.
Qed.

Lemma C3_witness :
  let ws := ["This"; "is"; "a"; "very"; "long"; "message"; "that"; "should";
             "be"; "truncated"; "to"; "create"; "a"; "reasonable"; "task";
             "title"] in
  ws <> [] /\ Forall word ws /\
  Js.join " " ws
  = "This is a very long message that should be truncated to create a reasonable task title" /\
  exists t task w',
    ClineCore.startNewTask (Some (Js.join " " ws)) ticking_world
    = (Return t, w') /\
    heap w' !! t = Some task /\
    title task = "This is a very long message...".
Proof.
  cbv zeta.
  assert (Hne : ["This"; "is"; "a"; "very"; "long"; "message"; "that";
                 "should"; "be"; "truncated"; "to"; "create"; "a";
                 "reasonable"; "task"; "title"] <> []) by discriminate.
  assert (Hws : Forall word
                  ["This"; "is"; "a"; "very"; "long"; "message"; "that";
                   "should"; "be"; "truncated"; "to"; "create"; "a";
                   "reasonable"; "task"; "title"]).
  { repeat (constructor; [split; [discriminate|reflexivity]|]). constructor. }
  split; [exact Hne|]. split; [exact Hws|]. split; [reflexivity|].
  exact (proj2 (proj1 (C3_title_of_single_spaced_message ticking_world)
                  _ Hne Hws)).
Defined.

(** The claim as the specification words it fails on its own example:
    the title of "a b c d e f g" ends with three ASCII dots, not with the
    one-character ellipsis. *)
Lemma C3_counterexample :
  title <$> heap (snd (ClineCore.startNewTask (Some "a b c d e f g")
                                              ticking_world)) !! 0
  = Some "a b c d e f..." /\
  Spec.title "a b c d e f g" = "a b c d e f…" /\
  title <$> heap (snd (ClineCore.startNewTask (Some "a b c d e f g")
                                              ticking_world)) !! 0
  <> Some (Spec.title "a b c d e f g").
Proof.
  split; [by vm_compute|]. split; [by vm_compute|by vm_compute].
Qed.

(** ** The task list *)

Lemma heap_grows ops w : length (heap w) <= length (heap (run ops w)).
Proof.
  destruct (evolves_run ops w) as (_ & _ & _ & H).
  destruct (le_lt_dec (length (heap w)) (length (heap (run ops w))))
    as [|Hlt]; [done|].
  destruct (lookup_lt_is_Some_2 (heap w) _ Hlt) as [t Ht].
  destruct (H _ _ Ht) as (t' & Ht' & _).
  apply lookup_lt_Some in Ht'. lia.
Qed.

(** C6: the task list only grows at its end.  Whatever sequence of calls
    is made, the list [getTasks] returned before is a prefix of the list it
    returns after, so no task is ever removed or moved; every
    [startNewTask] call appends exactly one task; and after a second
    [startNewTask] the first task is still in [getTasks()], still in the
    store, while [getCurrentTask()] is the second, a different task. *)
Theorem C6_task_list_append_only :
  (forall w,
      ClineCore.getTasks w = (Return (tasks (this w)), w) /\
      ClineCore.getCurrentTask w = (Return (currentTask (this w)), w)) /\
  (forall ops w, tasks (this w) `prefix_of` tasks (this (run ops w))) /\
  (forall w m,
      exists t w',
        ClineCore.startNewTask m w = (Return t, w') /\
        tasks (this w') = (tasks (this w) ++ [t])%list /\
        length (tasks (this w')) = S (length (tasks (this w)))) /\
  (forall w m1 ops m2,
      exists t1 w1 t2 w2,
        ClineCore.startNewTask m1 w = (Return t1, w1) /\
        ClineCore.startNewTask m2 (run ops w1) = (Return t2, w2) /\
        t1 ∈ tasks (this w2) /\
        is_Some (heap w2 !! t1) /\
        currentTask (this w2) = Some t2 /\
        t1 <> t2).
Proof.
  split; [done|]. split; [|split].
  - intros ops w. by destruct (evolves_run ops w) as (_ & _ & P & _).
  - intros w m. rewrite startNewTask_run. do 2 eexists.
    split; [done|]. cbn. split; [done|].
    rewrite length_app. cbn. lia.
  - intros w m1 ops m2.
    pose proof (startNewTask_run w m1) as E1.
    set (w1 := mkWorld _ _ _ _ _ _) in E1.
    pose proof (startNewTask_run (run ops w1) m2) as E2.
    exists (length (heap w)), w1, (length (heap (run ops w1))).
    eexists. split; [exact E1|]. split; [exact E2|]. cbn.
    pose proof (heap_grows ops w1) as G.
    assert (L : length (heap w1) = S (length (heap w))).
    { subst w1. cbn. rewrite length_app. cbn. lia. }
    destruct (evolves_run ops w1) as (_ & _ & P & _).
    split; [|split; [|split; [done|lia]]].
    + apply elem_of_app. left.
      eapply elem_of_prefix; [|exact P].
      subst w1. cbn. apply elem_of_app. right. by constructor.
    + apply lookup_lt_is_Some_2. rewrite length_app. lia.
Qed.

(** ** The notebook commands *)





(** ** Dates *)

(** [createdAt], like the id, the title and the status, is never written
    after the task is created, and messages are only added at the end. *)
Lemma createdAt_immutable ops w l t :
  heap w !! l = Some t ->
  exists t', heap (run ops w) !! l = Some t' /\ task_extends t t'.
Proof.
  intros H. destruct (evolves_run ops w) as (_ & _ & _ & E). by apply E.
Qed.

Lemma stamped_run ops w : stamped w -> stamped (run ops w).
Proof.
  revert w. apply run_ind.
  - intros w w' S (Hc & Ht & Hh & _). unfold stamped in *.
    by rewrite Hc, Ht, Hh.
  - intros w m S. rewrite startNewTask_run. unfold stamped in *. cbn.
    apply Forall_app. split.
    + eapply Forall_impl; [exact S|]. cbn.
      intros t (i & j & ? & ? & ? & ?). exists i, j.
      repeat split; try done. lia.
    + repeat constructor. exists (1 + ticks w), (2 + ticks w).
      repeat split; try lia. unfold start_reads. destruct (Js.truthy_opt m); lia.
  - intros w c i l S C. rewrite (sendMessage_run _ _ _ l C).
    unfold stamped in *. cbn.
    apply Forall_forall. intros t' Ht'.
    apply list_elem_of_lookup in Ht' as [k Hk].
    destruct (decide (l = k)) as [->|Hne].
    + rewrite list_lookup_alter_eq in Hk.
      destruct (heap w !! k) as [t|] eqn:Hl; [|done].
      injection Hk as <-.
      apply list_elem_of_lookup_2 in Hl.
      rewrite Forall_forall in S.
      destruct (S t Hl) as (a & b & ? & ? & Ha & Hb).
      exists a, (2 + ticks w). cbn. repeat split; try done; lia.
    + rewrite list_lookup_alter_ne in Hk by done.
      apply list_elem_of_lookup_2 in Hk.
      rewrite Forall_forall in S.
      destruct (S t' Hk) as (a & b & ? & ? & Ha & Hb).
      exists a, b. repeat split; try done; lia.
Qed.

(** With a clock that never runs backwards, [updatedAt >= createdAt] for
    every task the controller has created. *)
Lemma updatedAt_ge_createdAt clk cfg api ops t :
  (forall i j, i <= j -> (clk i <= clk j)%Z) ->
  t ∈ heap (run ops (new_world clk cfg api)) ->
  (createdAt t <= updatedAt t)%Z.
Proof.
  intros Mono Ht.
  assert (S : stamped (run ops (new_world clk cfg api))).
  { apply stamped_run. unfold stamped. cbn. constructor. }
  destruct (evolves_run ops (new_world clk cfg api)) as (Hc & _).
  unfold stamped in S. rewrite Forall_forall in S.
  destruct (S t Ht) as (i & j & Hij & _ & -> & ->).
  rewrite Hc. cbn. by apply Mono.
Qed.

(** C5 fails on the code: [sendMessage] refreshes [updatedAt] once, after
    the user message, and returns right after pushing the assistant
    message.  With a clock that advances at every reading, after
    [startNewTask("x")] and [sendMessage("y")] the task's [updatedAt] is
    the reading 1007, older than the assistant message it contains, stamped
    1009; the second refresh of [updatedAt] is missing. *)
Theorem C5_updatedAt_not_refreshed_after_reply :
  let w := run [call_startNewTask (Some "x"); call_sendMessage "y" None]
               ticking_world in
  exists task reply,
    current w = Some task /\
    last (messages task) = Some reply /\
    msg_type reply = assistant /\
    updatedAt task = 1007%Z /\
    msg_timestamp reply = 1009%Z /\
    (updatedAt task < msg_timestamp reply)%Z /\
    (createdAt task <= updatedAt task)%Z.
Proof.
  cbv zeta. do 2 eexists.
  split; [vm_compute; reflexivity|].
  split; [reflexivity|]. cbn. repeat split; lia.
Qed.

(** ** Identifiers *)

Lemma ids_tagged_run ops w : ids_tagged w -> ids_tagged (run ops w).
Proof.
  revert w. apply run_ind.
  - intros w w' S (_ & _ & Hh & _). unfold ids_tagged in *. by rewrite Hh.
  - intros w m S. rewrite startNewTask_run. unfold ids_tagged in *. cbn.
    apply Forall_app. split; [done|].
    repeat constructor; [by eexists|].
    destruct m as [[|c s]|]; cbn; repeat constructor. by eexists.
  - intros w c i l S C. rewrite (sendMessage_run _ _ _ l C).
    unfold ids_tagged in *. cbn.
    apply Forall_forall. intros t' Ht'.
    apply list_elem_of_lookup in Ht' as [k Hk].
    rewrite Forall_forall in S.
    destruct (decide (l = k)) as [->|Hne].
    + rewrite list_lookup_alter_eq in Hk.
      destruct (heap w !! k) as [t|] eqn:Hl; [|done].
      injection Hk as <-.
      apply list_elem_of_lookup_2 in Hl.
      destruct (S t Hl) as (Hid & Hms). split; [done|]. cbn.
      apply Forall_app. split; [done|]. repeat constructor; by eexists.
    + rewrite list_lookup_alter_ne in Hk by done.
      apply list_elem_of_lookup_2 in Hk. by apply S.
Qed.

(** A task id is never a message id, whatever the clock does. *)
Lemma task_id_not_msg_id clk cfg api ops t t' m :
  let w := run ops (new_world clk cfg api) in
  t ∈ heap w -> t' ∈ heap w -> m ∈ messages t' ->
  task_id t <> msg_id m.
Proof.
  cbv zeta. intros Ht Ht' Hm.
  assert (S : ids_tagged (run ops (new_world clk cfg api))).
  { apply ids_tagged_run. unfold ids_tagged. cbn. constructor. }
  unfold ids_tagged in S. rewrite Forall_forall in S.
  destruct (S t Ht) as ([n ->] & _).
  destruct (S t' Ht') as (_ & Hms).
  rewrite Forall_forall in Hms. destruct (Hms m Hm) as [k ->].
  discriminate.
Qed.

(** C8 fails on the code: a message id is [msg-] followed by the clock
    reading in milliseconds, so two messages made within one millisecond
    share their id; and the reply's id is the reading plus one, which is
    the id of the next user message when the next call comes a millisecond
    later.  With every reading in the same millisecond, the initial
    message of [startNewTask("x")] and the user message of
    [sendMessage("y")] have the same id; with a clock that advances once
    per call, the reply to "y" and the user message "z" have the same id. *)
Theorem C8_message_ids_collide :
  (let w := run [call_startNewTask (Some "x"); call_sendMessage "y" None]
                frozen_world in
   exists task first second,
     current w = Some task /\
     messages task !! 0 = Some first /\
     messages task !! 1 = Some second /\
     msg_content first = "x" /\ msg_content second = "y" /\
     msg_id first = msg_id second) /\
  (let w := run [call_startNewTask (Some "x"); call_sendMessage "y" None;
                 call_sendMessage "z" None]
                slow_world in
   exists task reply next,
     current w = Some task /\
     messages task !! 2 = Some reply /\
     messages task !! 3 = Some next /\
     msg_type reply = assistant /\ msg_content next = "z" /\
     msg_id reply = msg_id next).
Proof.
  split; cbv zeta; do 3 eexists;
    (split; [vm_compute; reflexivity|]);
    (split; [reflexivity|]); (split; [reflexivity|]);
    repeat split.
Qed.

(** ** The active document *)

Lemma cells_loop_content cells i acc lang :
  fst (JupyterLabHostProvider.cells_loop cells i acc lang)
  = acc +:+ code_blocks cells i.
Proof.
  revert i acc lang. induction cells as [|cell rest IH]; intros i acc lang.
  - cbn. by rewrite string_app_nil_r.
  - cbn [JupyterLabHostProvider.cells_loop code_blocks].
    destruct (decide (cell_type cell = "code")).
    + rewrite IH. unfold cell_block. by rewrite !string_app_assoc.
    + by rewrite IH.
Qed.

(** Once the language is not ["python"], no later cell changes it. *)
Lemma cells_loop_language_sticky cells i acc lang :
  lang <> "python" ->
  snd (JupyterLabHostProvider.cells_loop cells i acc lang) = lang.
Proof.
  intros Hl. revert i acc. induction cells as [|cell rest IH]; intros i acc.
  - done.
  - cbn [JupyterLabHostProvider.cells_loop].
    destruct (decide (cell_type cell = "code")); [|apply IH].
    rewrite decide_False by done. apply IH.
Qed.

(** The code agrees with the specification's rule on every notebook whose
    first declared language is not ["python"] itself. *)
Lemma cells_loop_language_agrees cells i acc :
  Spec.first_override cells <> Some "python" ->
  snd (JupyterLabHostProvider.cells_loop cells i acc "python")
  = Spec.language cells.
Proof.
  unfold Spec.language.
  revert i acc. induction cells as [|cell rest IH]; intros i acc Hf; [done|].
  cbn [JupyterLabHostProvider.cells_loop Spec.first_override] in *.
  destruct (decide (cell_type cell = "code")); [|by apply IH].
  rewrite decide_True by done.
  destruct (cell_language cell) as [l|]; [|by apply IH].
  destruct (Js.truthy l); [|by apply IH].
  cbn. apply cells_loop_language_sticky. congruence.
Qed.

Lemma getActiveDocument_unfocused api :
  shell api ≫= currentWidget = None ->
  JupyterLabHostProvider.getActiveDocument api = None.
Proof. unfold JupyterLabHostProvider.getActiveDocument. by intros ->. Qed.

Lemma getActiveDocument_notebook api widget cells :
  shell api ≫= currentWidget = Some widget ->
  content widget ≫= doc_model = Some (NotebookModel cells) ->
  JupyterLabHostProvider.getActiveDocument api
  = Some {|
      JupyterLabHostProvider.path :=
        Js.or_else (context_path widget) "untitled.ipynb";
      JupyterLabHostProvider.doc_content := code_blocks cells 0;
      JupyterLabHostProvider.language :=
        snd (JupyterLabHostProvider.cells_loop cells 0 "" "python")
    |}.
Proof.
  unfold JupyterLabHostProvider.getActiveDocument. intros -> ->.
  pose proof (cells_loop_content cells 0 "" "python") as C.
  destruct (JupyterLabHostProvider.cells_loop cells 0 "" "python") as [c l].
  cbn in C. by rewrite C.
Qed.

(** C9 fails on the code: the loop recognises "no override seen yet" by
    the language still being ["python"], so a first override that is
    ["python"] itself does not win.  For a focused notebook whose first
    code cell declares ["python"] and whose third cell declares ["r"], the
    first override encountered is ["python"], yet [getActiveDocument]
    answers ["r"].  The content is the code cells in display order, each
    under its marker. *)
Theorem C9_later_override_replaces_python :
  Spec.first_override polyglot_cells = Some "python" /\
  Spec.language polyglot_cells = "python" /\
  JupyterLabHostProvider.language
    <$> JupyterLabHostProvider.getActiveDocument (focus_notebook polyglot_cells)
  = Some "r" /\
  JupyterLabHostProvider.doc_content
    <$> JupyterLabHostProvider.getActiveDocument (focus_notebook polyglot_cells)
  = Some ("# Cell 1" +:+ Js.nl +:+ "x = 1" +:+ Js.nl +:+ Js.nl
          +:+ "# Cell 3" +:+ Js.nl +:+ "y <- 2" +:+ Js.nl +:+ Js.nl) /\
  JupyterLabHostProvider.getActiveDocument mockJupyterLabAPI = None.
Proof. repeat split. Qed.

(** * Further properties of the code *)

(** ** [ClineCore.updateConfig] *)

(** X1: [updateConfig] is a shallow merge that touches nothing but the
    configuration.  It never fails; each field of the new configuration
    is the field of the update when the update has it (even when it holds
    [undefined]) and the field of the old configuration otherwise; the
    tasks, the store, the clock, the console and the host stay as they
    are.  So an empty update changes nothing, the same update twice is the
    update once, and two updates in a row are one update with the fields
    of the second laid over those of the first. *)
Theorem X1_updateConfig_merges :
  forall w p q,
    let old := config (this w) in
    ClineCore.updateConfig p w
    = (Return tt,
       mkWorld (clock w) (ticks w) (heap w) (console w)
         (mkCore
            {| apiProvider := match p_apiProvider p with
                              | Some given => given
                              | None => apiProvider old
                              end;
               apiKey := match p_apiKey p with
                         | Some given => given
                         | None => apiKey old
                         end;
               apiUrl := match p_apiUrl p with
                         | Some given => given
                         | None => apiUrl old
                         end;
               model := match p_model p with
                        | Some given => given
                        | None => model old
                        end;
               maxTokens := match p_maxTokens p with
                            | Some given => given
                            | None => maxTokens old
                            end;
               temperature := match p_temperature p with
                              | Some given => given
                              | None => temperature old
                              end |}
            (currentTask (this w)) (tasks (this w)))
         (jupyterLabAPI w)) /\
    same_tasks w (snd (ClineCore.updateConfig p w)) /\
    ClineCore.updateConfig empty_partial w = (Return tt, w) /\
    ClineCore.updateConfig p (snd (ClineCore.updateConfig p w))
    = ClineCore.updateConfig p w /\
    ClineCore.updateConfig q (snd (ClineCore.updateConfig p w))
    = ClineCore.updateConfig (merge_partial p q) w.
Proof.
  intros [clk n h con [cfg cur ts] api] p q. cbv zeta.
  split; [done|]. split; [by repeat split|].
  split; [by destruct cfg|].
  unfold ClineCore.updateConfig, write, set_this. cbn.
  split; do 3 f_equal; unfold ClineCore.merge_config, merge_partial; cbn;
    destruct p as [[?|] [?|] [?|] [?|] [?|] [?|]];
    destruct q as [[?|] [?|] [?|] [?|] [?|] [?|]]; reflexivity.
Qed.

(** ** What the controller keeps true of its tasks *)

Lemma alter_Forall {A} (P : A -> Prop) (f : A -> A) (l : list A) (i : nat) :
  (forall x, l !! i = Some x -> P x -> P (f x)) ->
  Forall P l -> Forall P (alter f i l).
Proof.
  intros Hf Hl. apply Forall_forall. intros y Hy.
  apply list_elem_of_lookup in Hy as [k Hk].
  rewrite Forall_forall in Hl.
  destruct (decide (i = k)) as [->|Hne].
  - rewrite list_lookup_alter_eq in Hk.
    destruct (l !! k) as [x|] eqn:E; [|done]. injection Hk as <-.
    apply Hf; [done|]. apply Hl. by eapply list_elem_of_lookup_2.
  - rewrite list_lookup_alter_ne in Hk by done.
    apply Hl. by eapply list_elem_of_lookup_2.
Qed.

(** An invariant of every task object: true of a new task, kept when a
    message pair is appended. *)
Lemma heap_Forall_run (P : World -> ClineTask -> Prop) :
  (forall w w' t, clock w' = clock w -> ticks w <= ticks w' -> P w t -> P w' t) ->
  (forall w m, P (snd (ClineCore.startNewTask m w)) (new_task w m)) ->
  (forall w c i l t, currentTask (this w) = Some l -> heap w !! l = Some t ->
     P w t -> P (snd (ClineCore.sendMessage c i w)) (after_send w c i t)) ->
  forall ops w, Forall (P w) (heap w) -> Forall (P (run ops w)) (heap (run ops w)).
Proof.
  intros Hmono Hnew Hsend ops.
  apply (run_ind (fun w => Forall (P w) (heap w))).
  - intros w w' H (Hc & Ht & Hh & _). rewrite Hh.
    eapply Forall_impl; [exact H|]. intros t. apply Hmono; [done|lia].
  - intros w m H. pose proof (Hnew w m) as N.
    rewrite startNewTask_run in *. cbn in *.
    apply Forall_app. split; [|by repeat constructor].
    eapply Forall_impl; [exact H|]. intros t. apply Hmono; cbn; [done|lia].
  - intros w c i l H C. pose proof (Hsend w c i l) as S.
    rewrite (sendMessage_run _ _ _ l C) in *. cbn in *.
    apply alter_Forall.
    + intros t Ht Pt. apply S; [done|done|].
      rewrite Forall_forall in H. apply H. by eapply list_elem_of_lookup_2.
    + eapply Forall_impl; [exact H|].
      intros t. apply Hmono; cbn; [done|lia].
Qed.

(** X2: no code path ever sets a status other than [active], renames a
    task or changes its id or creation date, and messages are only ever
    added at the end of a task: after any sequence of calls every task
    that existed before is still at its place in the store, with the same
    id, title, status and [createdAt], and its old messages are a prefix
    of its new ones; and every task the controller has created is
    [active]. *)
Theorem X2_tasks_only_grow :
  (forall w ops,
      Forall2 (fun t t' =>
                 task_id t' = task_id t /\ title t' = title t /\
                 status t' = status t /\ createdAt t' = createdAt t /\
                 messages t `prefix_of` messages t')
              (heap w) (take (length (heap w)) (heap (run ops w)))) /\
  (forall clk cfg api ops,
      Forall (fun t => status t = active)
             (heap (run ops (new_world clk cfg api)))).
Proof.
  split.
  - intros w ops.
    destruct (evolves_run ops w) as (_ & _ & _ & E).
    pose proof (heap_grows ops w) as G.
    apply Forall2_same_length_lookup_2.
    + rewrite length_take. lia.
    + intros l t t' Ht Ht'.
      destruct (E l t Ht) as (t'' & Ht'' & X).
      rewrite lookup_take_lt in Ht' by (by eapply lookup_lt_Some).
      rewrite Ht'' in Ht'. injection Ht' as <-. exact X.
  - intros clk cfg api ops.
    by apply (heap_Forall_run (fun _ t => status t = active)).
Qed.

(** X3: the task list is exactly the tasks ever created, in creation
    order, each listed once, and the current task is always the last of
    the list: [getCurrentTask()] is null exactly when [getTasks()] is
    empty, and otherwise is the most recently started task. *)
Theorem X3_current_task_is_last_listed :
  forall clk cfg api ops,
    let w := run ops (new_world clk cfg api) in
    tasks (this w) = seq 0 (length (heap w)) /\
    NoDup (tasks (this w)) /\
    length (tasks (this w)) = length (heap w) /\
    currentTask (this w) = last (tasks (this w)) /\
    (currentTask (this w) = None <-> tasks (this w) = []).
Proof.
  intros clk cfg api ops. cbv zeta.
  assert (I : tasks_listed (run ops (new_world clk cfg api))).
  { apply run_ind; [| | |done].
    - intros w w' (T & C) (_ & _ & Hh & Hc & Ht).
      unfold tasks_listed. by rewrite Hh, Hc, Ht.
    - intros w m (T & C). rewrite startNewTask_run. unfold tasks_listed. cbn.
      rewrite length_app, T, last_snoc. cbn. split; [|done].
      by rewrite Nat.add_1_r, seq_S.
    - intros w c i l (T & C) Cur. rewrite (sendMessage_run _ _ _ l Cur).
      unfold tasks_listed. cbn. by rewrite length_alter. }
  destruct I as (T & C). split; [done|].
  split; [rewrite T; apply NoDup_seq|].
  split; [by rewrite T, length_seq|]. split; [done|].
  rewrite C. apply last_None.
Qed.

(** ** The shape of a conversation *)

Lemma conversation_reply msgs i r :
  conversation msgs -> msgs !! i = Some r -> msg_type r = assistant ->
  exists j u,
    i = S j /\ msgs !! j = Some u /\ msg_type u = user /\
    msg_content r = ClineCore.placeholder_reply (msg_content u).
Proof.
  intros C. revert i r. induction C as [|first U|msgs sent reply C IH U A E M];
    intros i r Hi Hr.
  - done.
  - destruct i; [|done]. injection Hi as <-. congruence.
  - destruct (decide (i < length msgs)) as [Hlt|Hge].
    + rewrite lookup_app_l in Hi by done.
      destruct (IH i r Hi Hr) as (j & u & -> & Hj & Hu & Hc).
      exists j, u. split; [done|]. split; [|done].
      rewrite lookup_app_l by lia. done.
    + rewrite lookup_app_r in Hi by lia.
      destruct (i - length msgs) as [|[|k]] eqn:D; cbn in Hi.
      * injection Hi as <-. congruence.
      * injection Hi as <-. exists (length msgs), sent.
        split; [lia|]. split; [|done].
        by rewrite lookup_app_r, Nat.sub_diag by lia.
      * done.
Qed.

Lemma conversation_types msgs :
  conversation msgs ->
  Forall (fun m => msg_type m = user \/ msg_type m = assistant) msgs.
Proof.
  induction 1 as [|first U|msgs sent reply C IH U A E M].
  - constructor.
  - constructor; [by left|constructor].
  - apply Forall_app. split; [done|].
    constructor; [by left|]. constructor; [by right|constructor].
Qed.

(** X4: every conversation the controller holds has one shape: at most
    one initial user message, then exchanges of a user message and the
    reply that quotes it.  So no message is ever of type system or tool,
    a conversation never starts with a reply, and every assistant message
    comes right after the user message it echoes. *)
Theorem X4_conversations_alternate :
  forall clk cfg api ops,
    Forall (fun t =>
              conversation (messages t) /\
              Forall (fun m => msg_type m = user \/ msg_type m = assistant)
                     (messages t) /\
              (forall i r,
                  messages t !! i = Some r -> msg_type r = assistant ->
                  exists j u,
                    i = S j /\ messages t !! j = Some u /\
                    msg_type u = user /\
                    msg_content r
                    = ClineCore.placeholder_reply (msg_content u)))
           (heap (run ops (new_world clk cfg api))).
Proof.
  intros clk cfg api ops.
  eapply Forall_impl.
  - apply (heap_Forall_run (fun _ t => conversation (messages t))).
    + done.
    + intros w [m|]; cbn; [|constructor].
      destruct (Js.truthy m); by constructor.
    + intros w c i l t _ _ C. cbn. by constructor.
    + cbn. constructor.
  - cbn. intros t C. split; [done|]. split; [by apply conversation_types|].
    intros i r. by apply conversation_reply.
Qed.

(** ** Dates in order *)

Lemma timeline_run ops w : timeline w -> timeline (run ops w).
Proof.
  revert w. unfold timeline.
  apply (heap_Forall_run (fun w t => exists c js,
            createdAt t = clock w c /\
            msg_timestamp <$> messages t = clock w <$> js /\
            StronglySorted lt (c :: js) /\
            Forall (fun j => j < ticks w) (c :: js))).
  - intros w1 w2 t Hc Ht (c & js & ? & ? & ? & B). exists c, js.
    rewrite Hc. repeat split; try done.
    eapply Forall_impl; [exact B|]. cbn. intros; lia.
  - intros w m. rewrite startNewTask_run. cbn.
    exists (1 + ticks w).
    destruct m as [[|a s]|]; cbn.
    + exists []. by repeat constructor.
    + exists [4 + ticks w]. split; [done|]. split; [done|].
      split; repeat constructor; cbn; lia.
    + exists []. by repeat constructor.
  - intros w c i l t C Hl (k & js & Hk & Hjs & S & B).
    rewrite (sendMessage_run _ _ _ l C). cbn.
    exists k, (js ++ [1 + ticks w; 4 + ticks w])%list.
    split; [done|]. split; [by rewrite !fmap_app, Hjs|].
    change (k :: js ++ [1 + ticks w; 4 + ticks w])%list
      with ((k :: js) ++ [1 + ticks w; 4 + ticks w])%list.
    rewrite Forall_forall in B. split.
    + apply StronglySorted_app_2; [|done|].
      * intros x y Hx Hy. apply B in Hx.
        apply elem_of_cons in Hy as [->|Hy]; [lia|].
        apply list_elem_of_singleton in Hy as ->. lia.
      * repeat constructor; lia.
    + apply Forall_app. split.
      * apply Forall_forall. intros x Hx. apply B in Hx. lia.
      * repeat constructor; lia.
Qed.

(** X5: with a clock that never runs backwards, the dates of every task
    are in order: [createdAt] is not after [updatedAt], and [createdAt]
    followed by the timestamps of the messages, in conversation order, is
    a non-decreasing sequence. *)
Theorem X5_dates_in_order :
  forall clk cfg api ops,
    (forall i j, i <= j -> (clk i <= clk j)%Z) ->
    Forall (fun t =>
              (createdAt t <= updatedAt t)%Z /\
              StronglySorted Z.le
                (createdAt t :: (msg_timestamp <$> messages t)))
           (heap (run ops (new_world clk cfg api))).
Proof.
  intros clk cfg api ops Mono.
  assert (S : stamped (run ops (new_world clk cfg api))).
  { apply stamped_run. unfold stamped. cbn. constructor. }
  assert (T : timeline (run ops (new_world clk cfg api))).
  { apply timeline_run. unfold timeline. cbn. constructor. }
  destruct (evolves_run ops (new_world clk cfg api)) as (Hc & _).
  unfold stamped, timeline in *. rewrite Hc in *. cbn in *.
  rewrite Forall_forall in *. intros t Ht. split.
  - destruct (S t Ht) as (i & j & Hij & _ & -> & ->). by apply Mono.
  - destruct (T t Ht) as (c & js & -> & -> & Sorted & _).
    change (clk c :: (clk <$> js)) with (clk <$> c :: js).
    eapply StronglySorted_fmap; [|exact Sorted].
    intros x y Hxy. apply Mono. lia.
Qed.

Lemma X5_witness :
  (forall i j, i <= j -> (ticking_clock i <= ticking_clock j)%Z) /\
  Forall (fun t =>
            (createdAt t <= updatedAt t)%Z /\
            StronglySorted Z.le
              (createdAt t :: (msg_timestamp <$> messages t)))
         (heap (run [call_startNewTask (Some "Initial task");
                     call_sendMessage "Hello, Cline!" None;
                     call_startNewTask None]
                    (new_world ticking_clock test_config mockJupyterLabAPI))).
Proof.
  assert (Mono : forall i j, i <= j -> (ticking_clock i <= ticking_clock j)%Z).
  { intros i j Hij. unfold ticking_clock. lia. }
  split; [exact Mono|].
  exact (X5_dates_in_order ticking_clock test_config mockJupyterLabAPI _ Mono).
Defined.

(** ** Identifiers *)

(** X6: a task id is never a message id: for every task and every
    message of any task the controller has created, the two ids differ
    (one starts with [task-], the other with [msg-]), whatever the clock
    reads. *)
Theorem X6_task_ids_are_not_message_ids :
  forall clk cfg api ops,
    let w := run ops (new_world clk cfg api) in
    Forall (fun t =>
              Forall (fun t' =>
                        Forall (fun m => task_id t <> msg_id m) (messages t'))
                     (heap w))
           (heap w).
Proof.
  intros clk cfg api ops. cbv zeta.
  assert (S : ids_tagged (run ops (new_world clk cfg api))).
  { apply ids_tagged_run. unfold ids_tagged. cbn. constructor. }
  unfold ids_tagged in S. rewrite Forall_forall in S.
  apply Forall_forall. intros t Ht. apply Forall_forall. intros t' Ht'.
  apply Forall_forall. intros m Hm.
  destruct (S t Ht) as ([n ->] & _).
  destruct (S t' Ht') as (_ & Hms).
  rewrite Forall_forall in Hms. destruct (Hms m Hm) as [k ->].
  discriminate.
Qed.

(** X7: the two messages of one [sendMessage] call never share an id,
    provided the clock does not run backwards between the two readings
    the ids are made from: the reply's id is made from its reading plus
    one. *)
Theorem X7_reply_id_differs_from_its_user_message :
  forall w content imgs l t,
    currentTask (this w) = Some l ->
    heap w !! l = Some t ->
    (clock w (ticks w) <= clock w (3 + ticks w))%Z ->
    exists sent reply w',
      ClineCore.sendMessage content imgs w = (Return reply, w') /\
      messages <$> heap w' !! l = Some (messages t ++ [sent; reply])%list /\
      msg_id sent <> msg_id reply.
Proof.
  intros w content imgs l t C Hl Hclk.
  exists (userMessage w content imgs), (assistantMessage w content).
  eexists. split; [by apply sendMessage_run|]. cbn.
  split; [by rewrite list_lookup_alter_eq, Hl|].
  intros E. apply (inj (String.append "msg-")) in E.
  apply (inj pretty) in E. cbn in Hclk, E. lia.
Qed.

Lemma X7_witness :
  let w := snd (ClineCore.startNewTask (Some "Initial task") frozen_world) in
  currentTask (this w) = Some 0 /\
  heap w !! 0 = Some (new_task frozen_world (Some "Initial task")) /\
  (clock w (ticks w) <= clock w (3 + ticks w))%Z /\
  exists sent reply w',
    ClineCore.sendMessage "Hello, Cline!" None w = (Return reply, w') /\
    messages <$> heap w' !! 0
    = Some (messages (new_task frozen_world (Some "Initial task"))
            ++ [sent; reply])%list /\
    msg_id sent <> msg_id reply.
Proof.
  cbv zeta.
  assert (H : (frozen_clock 5 <= frozen_clock 8)%Z) by (unfold frozen_clock; lia).
  split; [reflexivity|]. split; [reflexivity|]. split; [exact H|].
  exact (X7_reply_id_differs_from_its_user_message
           (snd (ClineCore.startNewTask (Some "Initial task") frozen_world))
           "Hello, Cline!" None 0 _ eq_refl eq_refl H).
Defined.

(** ** More on titles *)

Lemma count_app c (a b : string) :
  Js.count c (a +:+ b) = Js.count c a + Js.count c b.
Proof.
  induction a as [|x a IH]; [done|].
  rewrite string_app_cons. cbn [Js.count]. rewrite IH. lia.
Qed.

Lemma string_length_app (a b : string) :
  String.length (a +:+ b) = String.length a + String.length b.
Proof.
  induction a as [|x a IH]; [done|].
  rewrite string_app_cons. cbn [String.length]. by rewrite IH.
Qed.

Lemma count_join sep (xs : list string) :
  Forall (fun seg => Js.count sep seg = 0) xs ->
  Js.count sep (Js.join (String sep EmptyString) xs) = length xs - 1.
Proof.
  induction 1 as [|x xs Hx Hxs IH]; [done|].
  destruct xs as [|y xs].
  - cbn. lia.
  - rewrite join_cons, !count_app, IH, Hx. cbn.
    rewrite decide_True by done. lia.
Qed.

(** X8: a title never has more than five spaces (it has as many as the
    message, up to five), is at most three characters longer than the
    message, and is its own title: titling a title changes nothing. *)
Theorem X8_title_bounds :
  forall m,
    Js.count Js.space (generateTaskTitle m) = Js.count Js.space m `min` 5 /\
    String.length (generateTaskTitle m) <= String.length m + 3 /\
    generateTaskTitle (generateTaskTitle m) = generateTaskTitle m.
Proof.
  intros m.
  destruct (decide (Js.count Js.space m <= 5)) as [Hs|Hl].
  - rewrite !generateTaskTitle_short by done. repeat split; lia.
  - destruct (generateTaskTitle_long m) as (rest & Hm & Ht); [lia|].
    assert (Hc : Js.count Js.space (generateTaskTitle m) = 5).
    { rewrite Ht, count_app.
      rewrite (count_join Js.space).
      - rewrite length_take, length_split.
        change (Js.count Js.space "...") with 0. lia.
      - apply Forall_take, split_segments. }
    split; [lia|]. split.
    + rewrite Ht. rewrite Hm at 2. rewrite !string_length_app. cbn. lia.
    + apply generateTaskTitle_short. lia.
Qed.

(** ** The notebook commands, with their context *)

Lemma analyzeCurrentNotebook_sends w nb l :
  fst (ClineJupyterLabAdapter.getCurrentNotebook w) = Return (Some nb) ->
  currentTask (this w) = Some l ->
  ClineJupyterLabAdapter.analyzeCurrentNotebook w
  = (Return tt, snd (ClineCore.sendMessage analysis_message None w)).
Proof.
  intros G C.
  pose proof (sendMessage_caught w analysis_message
                "Failed to analyze notebook:") as S.
  rewrite C in S. rewrite <- S.
  unfold ClineJupyterLabAdapter.analyzeCurrentNotebook.
  unfold try_catch, mbind at 1, M_bind at 1.
  destruct (ClineJupyterLabAdapter.getCurrentNotebook w) as [r w1] eqn:E.
  assert (w1 = w) as -> by (by inversion E).
  cbn in G. subst r. reflexivity.
Qed.

Lemma explainSelectedCell_sends w cell l :
  fst (ClineJupyterLabAdapter.getSelectedCell w) = Return (Some cell) ->
  currentTask (this w) = Some l ->
  ClineJupyterLabAdapter.explainSelectedCell w
  = (Return tt,
     snd (ClineCore.sendMessage (explanation_message (source cell)) None w)).
Proof.
  intros G C.
  pose proof (sendMessage_caught w (explanation_message (source cell))
                "Failed to explain cell:") as S.
  rewrite C in S. rewrite <- S.
  unfold ClineJupyterLabAdapter.explainSelectedCell.
  unfold try_catch, mbind at 1, M_bind at 1.
  destruct (ClineJupyterLabAdapter.getSelectedCell w) as [r w1] eqn:E.
  assert (w1 = w) as -> by (by inversion E).
  cbn in G. subst r. reflexivity.
Qed.

Lemma optimizeSelectedCode_sends w code l :
  fst (ClineJupyterLabAdapter.getSelectedCode w) = Return (Some code) ->
  currentTask (this w) = Some l ->
  ClineJupyterLabAdapter.optimizeSelectedCode w
  = (Return tt,
     snd (ClineCore.sendMessage (optimized_message code) None w)).
Proof.
  intros G C.
  pose proof (sendMessage_caught w (optimized_message code)
                "Failed to optimize code:") as S.
  rewrite C in S. rewrite <- S.
  unfold ClineJupyterLabAdapter.optimizeSelectedCode.
  unfold try_catch, mbind at 1, M_bind at 1.
  destruct (ClineJupyterLabAdapter.getSelectedCode w) as [r w1] eqn:E.
  assert (w1 = w) as -> by (by inversion E).
  cbn in G. subst r. reflexivity.
Qed.

(** What a successful [sendMessage(text)] leaves behind. *)
Lemma sendMessage_records w text l t :
  currentTask (this w) = Some l -> heap w !! l = Some t ->
  exists sent reply,
    console (snd (ClineCore.sendMessage text None w)) = console w /\
    this (snd (ClineCore.sendMessage text None w)) = this w /\
    messages <$> heap (snd (ClineCore.sendMessage text None w)) !! l
    = Some (messages t ++ [sent; reply])%list /\
    msg_type sent = user /\ msg_content sent = text /\
    msg_type reply = assistant /\
    msg_content reply = ClineCore.placeholder_reply text.
Proof.
  intros C Hl. rewrite (sendMessage_run _ _ _ l C). cbn.
  exists (userMessage w text None), (assistantMessage w text).
  repeat split. by rewrite list_lookup_alter_eq, Hl.
Qed.

(** X9: when its context is there and a task is current, each notebook
    command is one [sendMessage] call and nothing else: it completes
    normally, writes nothing to the console, and adds exactly two messages
    to the current task, a message of type user carrying the command's
    text and the reply that quotes it.  The text of the analysis does not
    depend on the notebook; the explanation and the optimisation are built
    from the active cell's source and from the selected text. *)
Theorem X9_commands_record_an_exchange :
  forall w l t,
    currentTask (this w) = Some l ->
    heap w !! l = Some t ->
    let recorded (cmd : M unit) (text : string) :=
      exists sent reply w',
        cmd w = (Return tt, w') /\
        console w' = console w /\ this w' = this w /\
        messages <$> heap w' !! l = Some (messages t ++ [sent; reply])%list /\
        msg_type sent = user /\ msg_content sent = text /\
        msg_type reply = assistant /\
        msg_content reply = ClineCore.placeholder_reply text in
    (forall notebook,
        fst (ClineJupyterLabAdapter.getCurrentNotebook w)
        = Return (Some notebook) ->
        recorded ClineJupyterLabAdapter.analyzeCurrentNotebook
                 analysis_message) /\
    (forall cell,
        fst (ClineJupyterLabAdapter.getSelectedCell w) = Return (Some cell) ->
        recorded ClineJupyterLabAdapter.explainSelectedCell
                 (explanation_message (source cell))) /\
    (forall code,
        fst (ClineJupyterLabAdapter.getSelectedCode w) = Return (Some code) ->
        recorded ClineJupyterLabAdapter.optimizeSelectedCode
                 (optimized_message code)).
Proof.
  intros w l t C Hl recorded. subst recorded. cbv beta.
  split; [|split].
  - intros nb G. rewrite (analyzeCurrentNotebook_sends w nb l G C).
    destruct (sendMessage_records w analysis_message l t C Hl)
      as (sent & reply & H).
    exists sent, reply. eexists. split; [done|]. exact H.
  - intros cell G. rewrite (explainSelectedCell_sends w cell l G C).
    destruct (sendMessage_records w (explanation_message (source cell)) l t C Hl)
      as (sent & reply & H).
    exists sent, reply. eexists. split; [done|]. exact H.
  - intros code G. rewrite (optimizeSelectedCode_sends w code l G C).
    destruct (sendMessage_records w (optimized_message code) l t C Hl)
      as (sent & reply & H).
    exists sent, reply. eexists. split; [done|]. exact H.
Qed.

Lemma X9_witness :
  let w0 := new_world ticking_clock test_config
                      (focus_cell "print(1)" "print(1)") in
  let w := snd (ClineCore.startNewTask (Some "Initial task") w0) in
  let t := new_task w0 (Some "Initial task") in
  currentTask (this w) = Some 0 /\
  heap w !! 0 = Some t /\
  fst (ClineJupyterLabAdapter.getSelectedCode w) = Return (Some "print(1)") /\
  exists sent reply w',
    ClineJupyterLabAdapter.optimizeSelectedCode w = (Return tt, w') /\
    console w' = console w /\ this w' = this w /\
    messages <$> heap w' !! 0 = Some (messages t ++ [sent; reply])%list /\
    msg_type sent = user /\
    msg_content sent = optimized_message "print(1)" /\
    msg_type reply = assistant /\
    msg_content reply
    = ClineCore.placeholder_reply (optimized_message "print(1)").
Proof.
  cbv zeta.
  split; [reflexivity|]. split; [reflexivity|]. split; [reflexivity|].
  exact (proj2 (proj2
           (X9_commands_record_an_exchange
              (snd (ClineCore.startNewTask (Some "Initial task")
                      (new_world ticking_clock test_config
                                 (focus_cell "print(1)" "print(1)"))))
              0 _ eq_refl eq_refl))
           "print(1)" eq_refl).
Defined.

(** X10: [getSelectedCode] answers with a text only when the active cell
    has an editor whose selection is not empty; an empty selection counts
    as no selection.  So with a cell active but nothing selected,
    [optimizeSelectedCode] reports 'No code selected' to the console and
    sends nothing. *)
Theorem X10_empty_selection_is_no_selection :
  forall w,
    (forall code,
        fst (ClineJupyterLabAdapter.getSelectedCode w) = Return (Some code)
        <-> exists cell ed,
              fst (ClineJupyterLabAdapter.getSelectedCell w)
              = Return (Some cell) /\
              editor cell = Some ed /\ getSelectedText ed = code /\
              code <> "") /\
    (forall cell ed,
        fst (ClineJupyterLabAdapter.getSelectedCell w) = Return (Some cell) ->
        editor cell = Some ed -> getSelectedText ed = "" ->
        ClineJupyterLabAdapter.optimizeSelectedCode w
        = (Return tt, logged "Failed to optimize code:"
                             (Error "No code selected") w)).
Proof.
  intros w.
  assert (G : forall code,
             fst (ClineJupyterLabAdapter.getSelectedCode w) = Return (Some code)
             <-> exists cell ed,
                   fst (ClineJupyterLabAdapter.getSelectedCell w)
                   = Return (Some cell) /\
                   editor cell = Some ed /\ getSelectedText ed = code /\
                   code <> "").
  { intros code.
    unfold ClineJupyterLabAdapter.getSelectedCode, mbind, M_bind.
    destruct (ClineJupyterLabAdapter.getSelectedCell w) as [r w1] eqn:E.
    assert (w1 = w) as -> by (by inversion E).
    destruct r as [[[src [[sel]|]]|]|e]; cbn; [| | |by inversion E].
    - destruct sel as [|a sel]; cbn; split.
      + discriminate.
      + intros (cell & ed & [= <-] & [= <-] & <- & Hne). done.
      + intros [= <-]. by eexists _, _.
      + intros (cell & ed & [= <-] & [= <-] & <- & _). done.
    - split; [discriminate|]. intros (cell & ed & [= <-] & ? & _). done.
    - split; [discriminate|]. intros (cell & ed & ? & _). done. }
  split; [exact G|].
  intros cell ed Hc He Hs.
  pose proof (optimizeSelectedCode_run w) as O.
  destruct (fst (ClineJupyterLabAdapter.getSelectedCode w))
    as [[code|]|e] eqn:R; [|done|].
  - destruct (proj1 (G code) eq_refl) as (cell' & ed' & Hc' & He' & Hs' & Hne).
    rewrite Hc in Hc'. injection Hc' as <-.
    rewrite He in He'. injection He' as <-. congruence.
  - exfalso. revert R.
    unfold ClineJupyterLabAdapter.getSelectedCode, mbind, M_bind.
    destruct (ClineJupyterLabAdapter.getSelectedCell w) as [r w1] eqn:E.
    cbn in Hc. subst r. done.
Qed.

Lemma X10_witness :
  let w := new_world ticking_clock test_config (focus_cell "print(1)" "") in
  let cell := mkActiveCell "print(1)" (Some (mkEditor "")) in
  fst (ClineJupyterLabAdapter.getSelectedCell w) = Return (Some cell) /\
  editor cell = Some (mkEditor "") /\
  getSelectedText (mkEditor "") = "" /\
  ClineJupyterLabAdapter.optimizeSelectedCode w
  = (Return tt, logged "Failed to optimize code:"
                       (Error "No code selected") w).
Proof.
  cbv zeta.
  split; [reflexivity|]. split; [reflexivity|]. split; [reflexivity|].
  exact (proj2 (X10_empty_selection_is_no_selection
                  (new_world ticking_clock test_config
                             (focus_cell "print(1)" "")))
               _ _ eq_refl eq_refl eq_refl).
Defined.

(** ** [explainCode] *)

Lemma length_high_surrogate a b c d : Js.length (Js.high_surrogate a b c d) = 1.
Proof. reflexivity. Qed.

Lemma length_slice0 n s :
  Js.length (Js.slice0 n s) = n `min` Js.length s.
Proof.
  revert s. induction n as [n IH] using lt_wf_ind. intros s.
  destruct n as [|n]; [done|].
  destruct s as [|a s1]; [done|].
  cbn [Js.slice0 Js.length].
  destruct (Js.byte a <? 192)%N eqn:B1.
  { cbn [Js.length]. rewrite B1, IH by lia. lia. }
  destruct (Js.byte a <? 224)%N eqn:B2.
  { destruct s1 as [|b s2]; cbn [Js.length]; rewrite B1, B2; [lia|].
    rewrite IH by lia. lia. }
  destruct (Js.byte a <? 240)%N eqn:B3.
  { destruct s1 as [|b [|c s3]]; cbn [Js.length]; rewrite B1, B2, B3; try lia.
    rewrite IH by lia. lia. }
  destruct s1 as [|b [|c [|d s4]]]; try (cbn [Js.length]; rewrite B1, B2, B3; lia).
  destruct n as [|n].
  - rewrite length_high_surrogate. lia.
  - cbn [Js.length]. rewrite B1, B2, B3, IH by lia. lia.
Qed.

Lemma slice0_all n s : Js.length s <= n -> Js.slice0 n s = s.
Proof.
  revert s. induction n as [n IH] using lt_wf_ind. intros s.
  destruct s as [|a s1]; [by destruct n|].
  destruct n as [|n].
  { cbn [Js.length]. repeat case_match; lia. }
  cbn [Js.slice0 Js.length].
  destruct (Js.byte a <? 192)%N eqn:B1.
  { intros H. rewrite IH by lia. done. }
  destruct (Js.byte a <? 224)%N eqn:B2.
  { destruct s1 as [|b s2]; [done|]. intros H. by rewrite IH by lia. }
  destruct (Js.byte a <? 240)%N eqn:B3.
  { destruct s1 as [|b [|c s3]]; try done. intros H. by rewrite IH by lia. }
  destruct s1 as [|b [|c [|d s4]]]; try done.
  destruct n as [|n]; [lia|]. intros H. by rewrite IH by lia.
Qed.

(** The slice is a prefix of the bytes, unless the cut falls between the
    two code units of a character of four bytes: then the slice ends with
    the high surrogate of that character. *)
Lemma slice0_prefix n s :
  (exists rest, s = Js.slice0 n s +:+ rest) \/
  (exists p a b c d rest,
      s = p +:+ String a (String b (String c (String d rest))) /\
      (240 <= Js.byte a)%N /\
      Js.slice0 n s = p +:+ Js.high_surrogate a b c d).
Proof.
  revert s. induction n as [n IH] using lt_wf_ind. intros s.
  destruct n as [|n]; [left; by exists s|].
  destruct s as [|a s1]; [left; by exists ""|].
  assert (G : forall m (pre t : string),
             m < S n ->
             (exists rest, pre +:+ t = (pre +:+ Js.slice0 m t) +:+ rest) \/
             (exists p a b c d rest,
                 pre +:+ t
                 = p +:+ String a (String b (String c (String d rest))) /\
                 (240 <= Js.byte a)%N /\
                 pre +:+ Js.slice0 m t = p +:+ Js.high_surrogate a b c d)).
  { intros m pre t Hm.
    destruct (IH m Hm t) as [[rest E]|(p & a' & b & c & d & rest & E & L & F)].
    - left. exists rest. by rewrite string_app_assoc, <- E.
    - right. exists (pre +:+ p), a', b, c, d, rest.
      by rewrite !string_app_assoc, <- E, F. }
  cbn [Js.slice0].
  destruct (Js.byte a <? 192)%N eqn:B1.
  { apply (G n (String a "") s1). lia. }
  destruct (Js.byte a <? 224)%N eqn:B2.
  { destruct s1 as [|b s2]; [left; by exists ""|].
    apply (G n (String a (String b "")) s2). lia. }
  destruct (Js.byte a <? 240)%N eqn:B3.
  { destruct s1 as [|b [|c s3]]; try (left; by exists "").
    apply (G n (String a (String b (String c ""))) s3). lia. }
  destruct s1 as [|b [|c [|d s4]]]; try (left; by exists "").
  destruct n as [|n].
  - right. exists "", a, b, c, d, s4. split; [done|]. split; [|done].
    apply N.ltb_ge in B3. done.
  - apply (G n (String a (String b (String c (String d "")))) s4). lia.
Qed.

(** On a text of ASCII characters the code units are the bytes. *)
Lemma length_ascii s :
  Forall (fun a => (Js.byte a < 128)%N) (String.list_ascii_of_string s) ->
  Js.length s = String.length s.
Proof.
  induction s as [|a s IH]; [done|]. cbn [String.list_ascii_of_string].
  intros H. inversion H as [|? ? Ha Hs]; subst.
  cbn [Js.length String.length].
  replace (Js.byte a <? 192)%N with true by (symmetry; apply N.ltb_lt; lia).
  by rewrite IH.
Qed.

(** X11: the explanation quotes the first 100 UTF-16 code units of the
    code: the whole code when it is that short, otherwise a prefix of it
    (ending in a lone high surrogate when the cut falls inside a surrogate
    pair); and it calls the code 'complex operations' exactly when the code
    is longer than 100 code units, 'basic operations' otherwise.  It
    reads nothing else and changes nothing. *)
Theorem X11_explainCode_quotes_a_prefix :
  forall code w,
    exists quoted,
      ClineJupyterLabAdapter.explainCode code w
      = (Return ("This code performs: "
                 +:+ (if decide (Js.length code <= 100)
                      then "basic operations" else "complex operations")
                 +:+ ". " +:+ quoted +:+ "..."),
         w) /\
      Js.length quoted = 100 `min` Js.length code /\
      (Js.length code <= 100 -> quoted = code) /\
      ((exists rest, code = quoted +:+ rest) \/
       (exists p a b c d rest,
           code = p +:+ String a (String b (String c (String d rest))) /\
           (240 <= Js.byte a)%N /\
           quoted = p +:+ Js.high_surrogate a b c d)).
Proof.
  intros code w. exists (Js.slice0 100 code).
  split; [|split; [apply length_slice0|split; [apply slice0_all|apply slice0_prefix]]].
  unfold ClineJupyterLabAdapter.explainCode, mret, M_ret. do 3 f_equal.
  destruct (decide (Js.length code <= 100)) as [E|E].
  - by replace (100 <? _)%nat with false by (symmetry; apply Nat.ltb_ge; lia).
  - by replace (100 <? _)%nat with true by (symmetry; apply Nat.ltb_lt; lia).
Qed.

(** Thirty-four euro signs are 34 code units in 102 bytes: basic
    operations, quoted whole. *)
Example explainCode_euro :
  let euros := "€€€€€€€€€€€€€€€€€€€€€€€€€€€€€€€€€€" in
  String.length euros = 102 /\ Js.length euros = 34 /\
  fst (ClineJupyterLabAdapter.explainCode euros ticking_world)
  = Return ("This code performs: basic operations. " +:+ euros +:+ "...").
Proof. repeat split. Qed.

(** A cut inside the surrogate pair of U+1F600 leaves its high surrogate
    U+D83D, bytes ED A0 BD. *)
Example slice0_splits_pair :
  Js.length "😀" = 2 /\
  Js.slice0 2 "a😀"
  = String (Ascii.ascii_of_N 97)
      (String (Ascii.ascii_of_N 237)
         (String (Ascii.ascii_of_N 160)
            (String (Ascii.ascii_of_N 189) EmptyString))).
Proof. split; reflexivity. Qed.

(** ** [ClineJupyterLabAdapter.initialize] *)

(** X12: the adapter's [initialize] never touches the tasks, the store,
    the clock or what is focused.  When the host has a command registry
    (in which none of the three is registered yet) it registers the three
    commands analyze-notebook, explain-cell and optimize-code, in this
    order, after those already there, and completes normally; when the
    host has no registry, nothing is registered.  It logs the
    configuration, the integration set-up, the kernel set-up only when
    the host has a service manager, and the context tracking. *)
Theorem X12_adapter_initialize :
  forall w,
    (forall registry,
        commands (jupyterLabAPI w) = Some registry ->
        Forall (fun entry => entry.1 ∉ cline_commands.*1) registry) ->
    exists w',
      ClineJupyterLabAdapter.initialize w = (Return tt, w') /\
      same_tasks w w' /\ this w' = this w /\
      shell (jupyterLabAPI w') = shell (jupyterLabAPI w) /\
      serviceManager (jupyterLabAPI w') = serviceManager (jupyterLabAPI w) /\
      commands (jupyterLabAPI w')
      = (fun registry => registry ++ cline_commands)%list
          <$> commands (jupyterLabAPI w) /\
      console w'
      = (console w
         ++ [console_log_config "Initializing Cline with config:"
                                (config (this w));
             console_log "Setting up JupyterLab integration..."]
         ++ (if serviceManager (jupyterLabAPI w)
             then [console_log "Setting up kernel integration..."] else [])
         ++ [console_log "Setting up context tracking..."])%list.
Proof.
  intros [clk n h con th [sh [reg|] [|]]] _; eexists;
    (split; [reflexivity|]); cbn;
    repeat split; rewrite <- ?app_assoc; reflexivity.
Qed.

Lemma X12_witness :
  (forall registry,
      commands (jupyterLabAPI ticking_world) = Some registry ->
      Forall (fun entry => entry.1 ∉ cline_commands.*1) registry) /\
  exists w',
    ClineJupyterLabAdapter.initialize ticking_world = (Return tt, w') /\
    commands (jupyterLabAPI w') = Some cline_commands /\
    console w'
    = [console_log_config "Initializing Cline with config:" test_config;
       console_log "Setting up JupyterLab integration...";
       console_log "Setting up kernel integration...";
       console_log "Setting up context tracking..."].
Proof.
  assert (H : forall registry,
             commands (jupyterLabAPI ticking_world) = Some registry ->
             Forall (fun entry => entry.1 ∉ cline_commands.*1) registry).
  { intros registry [= <-]. constructor. }
  split; [exact H|].
  destruct (X12_adapter_initialize ticking_world H)
    as (w' & E & _ & _ & _ & _ & C & L).
  exists w'. split; [exact E|]. split; [exact C|exact L].
Defined.

(** ** More on the active document *)

Lemma cells_loop_language cells i acc :
  snd (JupyterLabHostProvider.cells_loop cells i acc "python")
  = default "python" (first_other_language cells).
Proof.
  revert i acc. induction cells as [|cell rest IH]; intros i acc; [done|].
  cbn [JupyterLabHostProvider.cells_loop first_other_language].
  destruct (decide (cell_type cell = "code")); [|by apply IH].
  rewrite decide_True by done.
  destruct (cell_language cell) as [l|]; [|by apply IH].
  destruct (Js.truthy l) eqn:T; cbn [andb]; [|by apply IH].
  destruct (decide (l = "python")) as [->|Hne].
  - rewrite bool_decide_eq_true_2 by done. cbn [negb]. apply IH.
  - rewrite bool_decide_eq_false_2 by done. cbn [negb default].
    by apply cells_loop_language_sticky.
Qed.

Lemma code_blocks_app cells more i :
  code_blocks (cells ++ more) i
  = code_blocks cells i +:+ code_blocks more (i + length cells).
Proof.
  revert i. induction cells as [|cell rest IH]; intros i.
  - cbn. by rewrite Nat.add_0_r.
  - cbn [app code_blocks length]. rewrite IH, string_app_assoc.
    by replace (S i + length rest) with (i + S (length rest)) by lia.
Qed.

Lemma code_blocks_no_code cells i :
  Forall (fun cell => cell_type cell <> "code") cells ->
  code_blocks cells i = "" /\ first_other_language cells = None.
Proof.
  intros H. revert i. induction H as [|cell rest Hc Hr IH]; intros i; [done|].
  cbn [code_blocks first_other_language].
  rewrite !decide_False by done. destruct (IH (S i)) as [-> ->]. done.
Qed.

(** X13: for a focused notebook, [getActiveDocument] answers with the
    notebook's path (or 'untitled.ipynb'), with the code cells in display
    order, each under a marker that numbers it by its position among all
    cells, and with the first language a code cell declares that is not
    'python' ('python' when there is none).  Cells that are not code cells
    add nothing, not even a marker; a notebook without code cells has
    empty content; and the content of a longer notebook starts with the
    content of the shorter one. *)
Theorem X13_notebook_document :
  forall api widget cells,
    shell api ≫= currentWidget = Some widget ->
    content widget ≫= doc_model = Some (NotebookModel cells) ->
    JupyterLabHostProvider.getActiveDocument api
    = Some {|
        JupyterLabHostProvider.path :=
          Js.or_else (context_path widget) "untitled.ipynb";
        JupyterLabHostProvider.doc_content := code_blocks cells 0;
        JupyterLabHostProvider.language :=
          default "python" (first_other_language cells)
      |} /\
    (Forall (fun cell => cell_type cell <> "code") cells ->
     code_blocks cells 0 = "") /\
    (forall cell more,
        code_blocks (cells ++ cell :: more) 0
        = code_blocks cells 0
          +:+ (if decide (cell_type cell = "code")
               then "# Cell " +:+ pretty (length cells + 1) +:+ Js.nl
                    +:+ cell_text cell +:+ Js.nl +:+ Js.nl
               else "")
          +:+ code_blocks more (S (length cells))).
Proof.
  intros api widget cells Hw Hm. split; [|split].
  - rewrite (getActiveDocument_notebook api widget cells Hw Hm).
    by rewrite cells_loop_language.
  - intros H. by destruct (code_blocks_no_code cells 0 H).
  - intros cell more. rewrite code_blocks_app. cbn [code_blocks Nat.add].
    unfold cell_block. by destruct (decide (cell_type cell = "code")).
Qed.

Lemma X13_witness :
  shell (focus_notebook polyglot_cells) ≫= currentWidget
  = Some (mkWidget (Some (mkContent (Some (NotebookModel polyglot_cells)) None))
                   (Some "analysis.ipynb")) /\
  JupyterLabHostProvider.getActiveDocument (focus_notebook polyglot_cells)
  = Some {|
      JupyterLabHostProvider.path := "analysis.ipynb";
      JupyterLabHostProvider.doc_content := code_blocks polyglot_cells 0;
      JupyterLabHostProvider.language := "r"
    |}.
Proof.
  split; [reflexivity|].
  exact (proj1 (X13_notebook_document (focus_notebook polyglot_cells) _
                  polyglot_cells eq_refl eq_refl)).
Defined.

Lemma assoc_languageMap_truthy ext l :
  JupyterLabHostProvider.assoc ext JupyterLabHostProvider.languageMap = Some l ->
  Js.truthy l = true.
Proof.
  cbn. repeat (case_decide; [by intros [= <-]|]). done.
Qed.

(** X14: for a focused plain file, the language is decided by what
    follows the last dot of the path, and only by that: 'py' gives
    python, 'js' javascript, 'ts' typescript, 'md' markdown, 'json' json,
    'yaml' and 'yml' yaml, anything else 'text' (the name of a property
    inherited from [Object.prototype] excepted).  A path without a dot is
    its own extension, so a file named 'py' is python; a missing path is
    'untitled', of language 'text'.  The content is the text of the file
    as it is. *)
Theorem X14_file_language_by_last_extension :
  forall api widget text,
    shell api ≫= currentWidget = Some widget ->
    content widget ≫= doc_model = Some (FileModel text) ->
    (forall stem ext,
        context_path widget = Some (stem +:+ "." +:+ ext) ->
        Js.count Js.dot ext = 0 ->
        ext ∉ Object_prototype_keys ->
        JupyterLabHostProvider.getActiveDocument api
        = Some {|
            JupyterLabHostProvider.path := stem +:+ "." +:+ ext;
            JupyterLabHostProvider.doc_content := text;
            JupyterLabHostProvider.language :=
              default "text"
                (JupyterLabHostProvider.assoc ext
                   JupyterLabHostProvider.languageMap)
          |}) /\
    (forall name,
        context_path widget = Some name ->
        name <> "" -> Js.count Js.dot name = 0 ->
        name ∉ Object_prototype_keys ->
        JupyterLabHostProvider.getActiveDocument api
        = Some {|
            JupyterLabHostProvider.path := name;
            JupyterLabHostProvider.doc_content := text;
            JupyterLabHostProvider.language :=
              default "text"
                (JupyterLabHostProvider.assoc name
                   JupyterLabHostProvider.languageMap)
          |}) /\
    (context_path widget = None \/ context_path widget = Some "" ->
     JupyterLabHostProvider.getActiveDocument api
     = Some {|
         JupyterLabHostProvider.path := "untitled";
         JupyterLabHostProvider.doc_content := text;
         JupyterLabHostProvider.language := "text"
       |}).
Proof.
  intros api widget text Hw Hm.
  assert (L : forall ext,
             Js.or_else (JupyterLabHostProvider.assoc ext
                           JupyterLabHostProvider.languageMap) "text"
             = default "text" (JupyterLabHostProvider.assoc ext
                                 JupyterLabHostProvider.languageMap)).
  { intros ext.
    destruct (JupyterLabHostProvider.assoc ext _) as [l|] eqn:E; [|done].
    cbn. by rewrite (assoc_languageMap_truthy ext l E). }
  unfold JupyterLabHostProvider.getActiveDocument. rewrite Hw, Hm.
  split; [|split].
  - intros stem ext Hp Hd _. rewrite Hp.
    assert (T : Js.or_else (Some (stem +:+ "." +:+ ext)) "untitled"
                = stem +:+ "." +:+ ext) by (by destruct stem).
    rewrite T. do 2 f_equal.
    change (stem +:+ "." +:+ ext) with (stem +:+ String Js.dot ext).
    rewrite split_app_sep, (split_no_sep Js.dot ext Hd).
    unfold Js.pop. rewrite last_snoc.
    rewrite <- L. by destruct ext.
  - intros name Hp Hn Hd _. rewrite Hp.
    assert (T : Js.or_else (Some name) "untitled" = name)
      by (by destruct name).
    rewrite T, (split_no_sep Js.dot name Hd). cbn [Js.pop last].
    rewrite <- L. by destruct name.
  - by intros [-> | ->].
Qed.

Lemma X14_witness :
  let widget := mkWidget (Some (mkContent (Some (FileModel "x = 1")) None))
                         (Some "src/model.test.py") in
  shell (focus_file (Some "src/model.test.py") "x = 1") ≫= currentWidget
  = Some widget /\
  content widget ≫= doc_model = Some (FileModel "x = 1") /\
  context_path widget = Some ("src/model.test" +:+ "." +:+ "py") /\
  Js.count Js.dot "py" = 0 /\
  ("py" ∉ Object_prototype_keys) /\
  JupyterLabHostProvider.getActiveDocument
    (focus_file (Some "src/model.test.py") "x = 1")
  = Some {|
      JupyterLabHostProvider.path := "src/model.test.py";
      JupyterLabHostProvider.doc_content := "x = 1";
      JupyterLabHostProvider.language := "python"
    |}.
Proof.
  cbv zeta.
  assert (K : "py" ∉ Object_prototype_keys).
  { unfold Object_prototype_keys. intros H.
    repeat (apply elem_of_cons in H as [H|H]; [discriminate|]).
    by apply elem_of_nil in H. }
  split; [reflexivity|]. split; [reflexivity|]. split; [reflexivity|].
  split; [reflexivity|]. split; [exact K|].
  exact (proj1 (X14_file_language_by_last_extension
                  (focus_file (Some "src/model.test.py") "x = 1")
                  _ "x = 1" eq_refl eq_refl)
               "src/model.test" "py" eq_refl eq_refl K).
Defined.

(** ** File operations of the host provider *)

(** X15: every failure of [readFile], [writeFile] and [listFiles] is an
    [Error] whose message says which operation failed on which path and
    ends with the cause; nothing else is ever thrown.  On a host with a
    service manager each of the three succeeds exactly when the host call
    does ([listFiles] also needs the content to be a directory listing):
    [readFile] hands over the content it received, [listFiles] the names
    of the entries in order, and a failure of the host call is re-thrown
    with the path and the rendered cause.  Without a service manager all
    three fail, naming the path. *)
Theorem X15_file_errors_name_the_path :
  forall svc path text w,
    (forall e w',
        HostIO.readFile svc path w = (Throw e, w') ->
        exists cause,
          e = Error ("Failed to read file " +:+ path +:+ ": " +:+ cause)) /\
    (forall e w',
        HostIO.writeFile svc path text w = (Throw e, w') ->
        exists cause,
          e = Error ("Failed to write file " +:+ path +:+ ": " +:+ cause)) /\
    (forall e w',
        HostIO.listFiles svc path w = (Throw e, w') ->
        exists cause,
          e = Error ("Failed to list files in " +:+ path +:+ ": " +:+ cause)) /\
    (serviceManager (jupyterLabAPI w) = false ->
     HostIO.readFile svc path w
     = (Throw (Error ("Failed to read file " +:+ path +:+ ": "
                      +:+ HostIO.shown_no_serviceManager svc)), w) /\
     HostIO.writeFile svc path text w
     = (Throw (Error ("Failed to write file " +:+ path +:+ ": "
                      +:+ HostIO.shown_no_serviceManager svc)), w) /\
     HostIO.listFiles svc path w
     = (Throw (Error ("Failed to list files in " +:+ path +:+ ": "
                      +:+ HostIO.shown_no_serviceManager svc)), w)) /\
    (serviceManager (jupyterLabAPI w) = true ->
     (forall response w',
         HostIO.contents_get svc path w = (Return response, w') ->
         HostIO.readFile svc path w
         = (Return (HostIO.model_content response), w')) /\
     (forall cause w',
         HostIO.contents_get svc path w = (Throw cause, w') ->
         HostIO.readFile svc path w
         = (Throw (Error ("Failed to read file " +:+ path +:+ ": "
                          +:+ HostIO.show_error cause)), w') /\
         HostIO.listFiles svc path w
         = (Throw (Error ("Failed to list files in " +:+ path +:+ ": "
                          +:+ HostIO.show_error cause)), w')) /\
     (forall items w',
         HostIO.contents_get svc path w
         = (Return (HostIO.mkModel (HostIO.DirContent items)), w') ->
         HostIO.listFiles svc path w
         = (Return (HostIO.item_name <$> items), w')) /\
     (forall content w',
         HostIO.contents_get svc path w
         = (Return (HostIO.mkModel (HostIO.TextContent content)), w') ->
         HostIO.listFiles svc path w
         = (Throw (Error ("Failed to list files in " +:+ path +:+ ": "
                          +:+ HostIO.shown_not_a_function svc)), w')) /\
     (forall w',
         HostIO.contents_save svc path (HostIO.mkSave "file" "text" text) w
         = (Return tt, w') ->
         HostIO.writeFile svc path text w = (Return tt, w')) /\
     (forall cause w',
         HostIO.contents_save svc path (HostIO.mkSave "file" "text" text) w
         = (Throw cause, w') ->
         HostIO.writeFile svc path text w
         = (Throw (Error ("Failed to write file " +:+ path +:+ ": "
                          +:+ HostIO.show_error cause)), w'))).
Proof.
  intros svc path text w.
  unfold HostIO.readFile, HostIO.writeFile, HostIO.listFiles,
    try_catch, mbind, M_bind, mret, M_ret, throw.
  destruct (serviceManager (jupyterLabAPI w)).
  - destruct (HostIO.contents_get svc path w) as [[response|cause] w1] eqn:G;
      destruct (HostIO.contents_save svc path _ w) as [[[]|cause'] w2] eqn:S;
      repeat split; intros; simplify_eq; cbn; eauto;
      destruct (HostIO.model_content _); simplify_eq; eauto.
  - repeat split; intros; simplify_eq; eauto.
Qed.

Lemma X15_witness :
  let svc := table_services [("test.py", "mock file content")] in
  serviceManager (jupyterLabAPI ticking_world) = true /\
  HostIO.contents_get svc "missing.py" ticking_world
  = (Throw (Error "File not found"), ticking_world) /\
  HostIO.readFile svc "missing.py" ticking_world
  = (Throw (Error ("Failed to read file " +:+ "missing.py" +:+ ": "
                   +:+ "Error: File not found")), ticking_world) /\
  HostIO.readFile svc "test.py" ticking_world
  = (Return (HostIO.TextContent "mock file content"), ticking_world).
Proof.
  cbv zeta.
  destruct (X15_file_errors_name_the_path
              (table_services [("test.py", "mock file content")])
              "missing.py" "" ticking_world) as (_ & _ & _ & _ & M).
  destruct (X15_file_errors_name_the_path
              (table_services [("test.py", "mock file content")])
              "test.py" "" ticking_world) as (_ & _ & _ & _ & T).
  split; [reflexivity|]. split; [reflexivity|]. split.
  - exact (proj1 (proj1 (proj2 (M eq_refl)) _ _ eq_refl)).
  - exact (proj1 (T eq_refl) _ _ eq_refl).
Defined.

(** ** [showProgress] *)

(** X16: [showProgress] runs the task once, between a 'Starting' line
    and a 'Completed' or 'Failed' line on the console, and changes nothing
    else: its outcome is the outcome of the task, a failure is re-thrown
    as it was caught, and what the task did to the world is kept. *)
Theorem X16_showProgress_is_transparent :
  forall title task w,
    let started :=
      set_console (console w ++ [console_log ("Starting: " +:+ title)]) w in
    let outcome := fst (task started) in
    let after := snd (task started) in
    HostIO.showProgress title task w
    = (outcome,
       set_console
         (console after
          ++ [match outcome with
              | Return _ => console_log ("Completed: " +:+ title)
              | Throw e => console_error ("Failed: " +:+ title) e
              end])
         after).
Proof.
  intros title task w. cbv zeta.
  unfold HostIO.showProgress, try_catch, mbind, M_bind, console_emit, write,
    throw.
  destruct (task _) as [[[]|e] w1]; reflexivity.
Qed.

(** ** [CoreClineController] *)

Lemma showMessage_logs svc message type w :
  commands (jupyterLabAPI w) = None \/ HostIO.notificationManager svc = None ->
  HostIO.showMessage svc message type w
  = (Return tt,
     set_console
       (console w
        ++ [console_log (HostIO.toUpperCase type +:+ ": " +:+ message)]) w).
Proof.
  intros H. unfold HostIO.showMessage, mbind, M_bind, read.
  destruct (commands (jupyterLabAPI w));
    destruct (HostIO.notificationManager svc); try done; by destruct H.
Qed.

Lemma showMessage_emits svc message type w registry emit :
  commands (jupyterLabAPI w) = Some registry ->
  HostIO.notificationManager svc = Some emit ->
  HostIO.showMessage svc message type w = emit message type w.
Proof.
  intros Hr Hn. unfold HostIO.showMessage, mbind, M_bind, read.
  by rewrite Hr, Hn.
Qed.

(** X17: [getCurrentWorkspace] never fails: it answers with what the
    host names, and with './' when the host has no service manager or its
    call fails.  [analyzeContext] never fails either: its text starts with
    the workspace and goes on with either 'No active document found.' or
    the path, the language and a preview of the active document, the
    first 500 UTF-16 code units of its content (all of it when it is that
    short).  [executeTask] announces the task first: on a host without a
    notification manager it logs the announcement to the console and then
    answers with the task and the context analysis; when the call of the
    notification manager throws, [executeTask] fails with that error and
    analyses nothing.  (Stated for a focused file whose extension is not
    the name of a member of [Object.prototype].) *)
Theorem X17_analyzeContext_never_fails :
  forall svc w,
    (exists workspace w',
        HostIO.getCurrentWorkspace svc w = (Return workspace, w') /\
        (serviceManager (jupyterLabAPI w) = false ->
         workspace = "./" /\ w' = w) /\
        (serviceManager (jupyterLabAPI w) = true ->
         forall e w1,
           HostIO.contents_getDownloadUrl svc "./" w = (Throw e, w1) ->
           workspace = "./" /\ w' = w1) /\
        (serviceManager (jupyterLabAPI w) = true ->
         forall url w1,
           HostIO.contents_getDownloadUrl svc "./" w = (Return url, w1) ->
           workspace = url /\ w' = w1) /\
        (inherited_extension (jupyterLabAPI w') = false ->
         CoreClineController.analyzeContext svc w
         = (Return ("Current workspace: " +:+ workspace +:+ Js.nl +:+ Js.nl
                    +:+ match JupyterLabHostProvider.getActiveDocument
                                (jupyterLabAPI w') with
                        | Some doc =>
                            "Active document: "
                            +:+ JupyterLabHostProvider.path doc +:+ Js.nl
                            +:+ "Language: "
                            +:+ JupyterLabHostProvider.language doc +:+ Js.nl
                            +:+ "Content preview:" +:+ Js.nl
                            +:+ Js.slice0 500
                                  (JupyterLabHostProvider.doc_content doc)
                            +:+ "..." +:+ Js.nl
                        | None => "No active document found." +:+ Js.nl
                        end), w'))) /\
    (forall content,
        Js.length (Js.slice0 500 content) = 500 `min` Js.length content /\
        (Js.length content <= 500 -> Js.slice0 500 content = content)) /\
    (forall task,
        commands (jupyterLabAPI w) = None \/
        HostIO.notificationManager svc = None ->
        let announced :=
          set_console
            (console w ++ [console_log ("INFO: Starting task: " +:+ task)]) w in
        exists context w',
          snd (CoreClineController.executeTask svc task w) = w' /\
          (inherited_extension (jupyterLabAPI w') = false ->
           CoreClineController.analyzeContext svc announced
           = (Return context, w') /\
           CoreClineController.executeTask svc task w
           = (Return ("Task completed: " +:+ task +:+ Js.nl +:+ Js.nl
                      +:+ "Context analysis:" +:+ Js.nl +:+ context), w'))) /\
    (forall task registry emit e w1,
        commands (jupyterLabAPI w) = Some registry ->
        HostIO.notificationManager svc = Some emit ->
        emit ("Starting task: " +:+ task) HostIO.sev_info w = (Throw e, w1) ->
        CoreClineController.executeTask svc task w = (Throw e, w1)).
Proof.
  assert (W : forall svc w, exists workspace w',
             HostIO.getCurrentWorkspace svc w = (Return workspace, w') /\
             (serviceManager (jupyterLabAPI w) = false ->
              workspace = "./" /\ w' = w) /\
             (serviceManager (jupyterLabAPI w) = true ->
              forall e w1,
                HostIO.contents_getDownloadUrl svc "./" w = (Throw e, w1) ->
                workspace = "./" /\ w' = w1) /\
             (serviceManager (jupyterLabAPI w) = true ->
              forall url w1,
                HostIO.contents_getDownloadUrl svc "./" w = (Return url, w1) ->
                workspace = url /\ w' = w1)).
  { intros svc w.
    unfold HostIO.getCurrentWorkspace, try_catch, mret, M_ret.
    destruct (serviceManager (jupyterLabAPI w)).
    - destruct (HostIO.contents_getDownloadUrl svc "./" w)
        as [[url|e] w1] eqn:U; do 2 eexists;
        (split; [reflexivity|]); repeat split; intros; simplify_eq; done.
    - do 2 eexists. split; [reflexivity|]. by repeat split. }
  assert (A : forall svc w, exists workspace w',
             CoreClineController.analyzeContext svc w
             = (Return ("Current workspace: " +:+ workspace +:+ Js.nl +:+ Js.nl
                   +:+ match JupyterLabHostProvider.getActiveDocument
                               (jupyterLabAPI w') with
                       | Some doc =>
                           "Active document: "
                           +:+ JupyterLabHostProvider.path doc +:+ Js.nl
                           +:+ "Language: "
                           +:+ JupyterLabHostProvider.language doc +:+ Js.nl
                           +:+ "Content preview:" +:+ Js.nl
                           +:+ Js.slice0 500
                                 (JupyterLabHostProvider.doc_content doc)
                           +:+ "..." +:+ Js.nl
                       | None => "No active document found." +:+ Js.nl
                       end), w') /\
             HostIO.getCurrentWorkspace svc w = (Return workspace, w')).
  { intros svc w. destruct (W svc w) as (workspace & w' & G & _).
    exists workspace, w'. split; [|done].
    unfold CoreClineController.analyzeContext, mbind, M_bind. rewrite G.
    unfold HostIO.getActiveDocument, read, mret, M_ret.
    by rewrite string_app_assoc, !string_app_assoc. }
  intros svc w. split; [|split; [|split]].
  - destruct (W svc w) as (workspace & w' & G & F & T & U).
    destruct (A svc w) as (workspace' & w'' & E & G').
    rewrite G in G'. simplify_eq.
    exists workspace', w''. done.
  - intros content. split; [apply length_slice0|apply slice0_all].
  - intros task Hno. cbv zeta.
    destruct (A svc (set_console
                       (console w
                        ++ [console_log
                              ("INFO" +:+ ": " +:+ ("Starting task: " +:+ task))])
                       w))
      as (workspace & w' & E & _).
    assert (X : CoreClineController.executeTask svc task w
                = (Return ("Task completed: " +:+ task +:+ Js.nl +:+ Js.nl
                           +:+ "Context analysis:" +:+ Js.nl
                           +:+ ("Current workspace: " +:+ workspace
                                +:+ Js.nl +:+ Js.nl
                   +:+ match JupyterLabHostProvider.getActiveDocument
                               (jupyterLabAPI w') with
                       | Some doc =>
                           "Active document: "
                           +:+ JupyterLabHostProvider.path doc +:+ Js.nl
                           +:+ "Language: "
                           +:+ JupyterLabHostProvider.language doc +:+ Js.nl
                           +:+ "Content preview:" +:+ Js.nl
                           +:+ Js.slice0 500
                                 (JupyterLabHostProvider.doc_content doc)
                           +:+ "..." +:+ Js.nl
                       | None => "No active document found." +:+ Js.nl
                       end)), w')).
    { unfold CoreClineController.executeTask, mbind, M_bind.
      rewrite showMessage_logs by done. cbn [HostIO.toUpperCase].
      by rewrite E. }
    eexists _, w'. split; [by rewrite X|]. intros _. split; [exact E|exact X].
  - intros task registry emit e w1 Hr Hn He.
    unfold CoreClineController.executeTask, mbind, M_bind.
    by rewrite (showMessage_emits _ _ _ _ registry emit Hr Hn), He.
Qed.

Lemma X17_witness :
  let svc := table_services [("test.py", "mock file content")] in
  let announced :=
    set_console
      (console ticking_world
       ++ [console_log ("INFO: Starting task: " +:+ "Analyze this notebook")])
      ticking_world in
  HostIO.notificationManager svc = None /\
  inherited_extension (jupyterLabAPI announced) = false /\
  CoreClineController.analyzeContext svc announced
  = (Return ("Current workspace: /files/./" +:+ Js.nl +:+ Js.nl
             +:+ "No active document found." +:+ Js.nl), announced) /\
  exists context,
    CoreClineController.executeTask svc "Analyze this notebook" ticking_world
    = (Return ("Task completed: " +:+ "Analyze this notebook"
               +:+ Js.nl +:+ Js.nl
               +:+ "Context analysis:" +:+ Js.nl +:+ context), announced).
Proof.
  cbv zeta. split; [reflexivity|]. split; [reflexivity|].
  split; [reflexivity|].
  destruct (proj1 (proj2 (proj2
              (X17_analyzeContext_never_fails
                 (table_services [("test.py", "mock file content")])
                 ticking_world)))
              "Analyze this notebook" (or_intror eq_refl))
    as (context & w' & Hw & G).
  cbn in Hw. subst w'. exists context.
  exact (proj2 (G eq_refl)).
Defined.

(** ** Superseded tasks *)

Lemma newest_is_current_run ops w :
  newest_is_current w -> newest_is_current (run ops w).
Proof.
  revert w. apply run_ind.
  - intros w w' N (_ & _ & Hh & Hc & _) l. rewrite Hh, Hc. apply N.
  - intros w m _ l. rewrite startNewTask_run. cbn.
    intros [= <-]. rewrite length_app. cbn. lia.
  - intros w c i l0 N C l. rewrite (sendMessage_run _ _ _ l0 C). cbn.
    rewrite length_alter. apply N.
Qed.

Lemma superseded_step o w l :
  newest_is_current w -> S l < length (heap w) ->
  heap (step o w) !! l = heap w !! l.
Proof.
  intros N Hl.
  destruct (step_cases o w) as [(_ & _ & Hh & _)|[(m & ->)|(c & i & l0 & C & ->)]].
  - by rewrite Hh.
  - cbn [step]. unfold ignore. rewrite startNewTask_run. cbn.
    apply lookup_app_l. lia.
  - rewrite (sendMessage_run _ _ _ l0 C). cbn.
    apply list_lookup_alter_ne. apply N in C. lia.
Qed.

Lemma superseded_run ops w l :
  newest_is_current w -> S l < length (heap w) ->
  heap (run ops w) !! l = heap w !! l.
Proof.
  revert w. induction ops as [|o ops IH]; intros w N Hl; [done|].
  rewrite run_cons, IH.
  - by apply superseded_step.
  - apply (newest_is_current_run [o] w N).
  - pose proof (heap_grows [o] w). cbn in *. lia.
Qed.

(** X18: a task that has been superseded is never written again.  Once a
    newer task exists, no sequence of calls changes the older task in any
    way: no message is added to it and its [updatedAt] stays; only the
    most recently started task can change. *)
Theorem X18_superseded_tasks_are_frozen :
  forall clk cfg api before after l,
    let w := run before (new_world clk cfg api) in
    S l < length (heap w) ->
    heap (run after w) !! l = heap w !! l.
Proof.
  intros clk cfg api before after l w Hl. subst w.
  apply superseded_run; [|done].
  apply newest_is_current_run. intros l'. cbn. discriminate.
Qed.

Lemma X18_witness :
  let w := run [call_startNewTask (Some "Initial task");
                call_sendMessage "Hello, Cline!" None;
                call_startNewTask None]
               (new_world ticking_clock test_config mockJupyterLabAPI) in
  let after := [call_sendMessage "What does this code do?" None;
                cmd_analyze_notebook;
                call_startNewTask (Some "Analyze this notebook");
                call_sendMessage "again" None] in
  1 < length (heap w) /\
  heap (run after w) !! 0 = heap w !! 0.
Proof.
  cbv zeta.
  assert (H : 1 < length (heap (run [call_startNewTask (Some "Initial task");
                                     call_sendMessage "Hello, Cline!" None;
                                     call_startNewTask None]
                                    (new_world ticking_clock test_config
                                               mockJupyterLabAPI))))
    by (vm_compute; lia).
  split; [exact H|].
  exact (X18_superseded_tasks_are_frozen ticking_clock test_config
           mockJupyterLabAPI _ _ 0 H).
Defined.

(** X19: a title is given once, when the task is started, and comes
    from nothing but the message the task is started with: every task is
    titled either 'New Task' or by the title rule applied to the content of
    its first message.  A task started without a message keeps the title
    'New Task' whatever is sent to it later. *)
Theorem X19_titles_come_from_the_first_message :
  (forall clk cfg api ops,
      Forall titled_by_first_message
             (heap (run ops (new_world clk cfg api)))) /\
  (forall w ops,
      exists t w1,
        ClineCore.startNewTask None w = (Return t, w1) /\
        title <$> heap (run ops w1) !! t = Some "New Task").
Proof.
  split.
  - intros clk cfg api ops.
    apply (heap_Forall_run (fun _ t => titled_by_first_message t)).
    + done.
    + intros w [m|]; [|by left]. unfold titled_by_first_message. cbn.
      destruct (Js.truthy m); [right|by left]. by eexists.
    + intros w c i l t _ _ [T|(first & F & T)]; [by left|right].
      exists first. cbn. split; [|done].
      rewrite lookup_app_l; [done|]. by eapply lookup_lt_Some.
    + cbn. constructor.
  - intros w ops. rewrite startNewTask_run. do 2 eexists.
    split; [reflexivity|].
    destruct (evolves_run ops
                (mkWorld (clock w) (start_reads None + ticks w)
                   (heap w ++ [new_task w None]) (console w)
                   (mkCore (config (this w)) (Some (length (heap w)))
                      (tasks (this w) ++ [length (heap w)]))
                   (jupyterLabAPI w))) as (_ & _ & _ & E).
    destruct (E (length (heap w)) (new_task w None)) as (t' & -> & _ & T & _).
    + cbn. by rewrite lookup_app_r, Nat.sub_diag by lia.
    + cbn. by rewrite T.
Qed.
